(** * debug-server.py: the read path of the claude-threads debug dashboard

    A shallow embedding of [scripts/debug-server.py]: the data-directory
    resolver, the read access layer ([get_db], [query_db], [scalar_db],
    [is_pid_running], [read_log_file]) and the request router
    ([DebugHandler.do_GET] with its [api_*] handlers).

    Python computations are modelled in a small monad that carries what
    the script prints on standard output and either a value or a raised
    exception.  The process environment, the filesystem, the sqlite store,
    the process table and the clock are read from a [World] record. *)

From Stdlib Require Import ZArith List String Ascii Bool Lia.
From Stdlib Require Import DecimalString.
Import ListNotations.

Local Open Scope string_scope.
Local Open Scope Z_scope.

(** ** Python values and exceptions *)

(** The exception classes the modelled code can meet.  All of them derive
    from [Exception]; asynchronous [BaseException]s such as
    [KeyboardInterrupt] are outside the model. *)
Inductive exn_class : Type :=
| ValueError
| IndexError
| OSError
| UnicodeDecodeError
| OverflowError
| OperationalError
| ProgrammingError
| DatabaseError.

Record exn : Type := mkExn { exn_cls : exn_class; exn_msg : string }.

Inductive Result (A : Type) : Type :=
| Ok (a : A)
| Raise (e : exn).
Arguments Ok {A} a.
Arguments Raise {A} e.

(** A computation: the lines printed on standard output, in order, and
    the outcome. *)
Definition M (A : Type) : Type := (list string * Result A)%type.

Definition ret {A} (a : A) : M A := ([], Ok a).

Definition raise {A} (e : exn) : M A := ([], Raise e).

Definition lift {A} (r : Result A) : M A := ([], r).

Definition print (line : string) : M unit := ([line], Ok tt).

Definition bind {A B} (m : M A) (k : A -> M B) : M B :=
  match m with
  | (out, Ok a) => let (out', r) := k a in ((out ++ out')%list, r)
  | (out, Raise e) => (out, Raise e)
  end.

(** [try: body / except Exception as e: handler e] (also the bare
    [except:], which catches every class of the model). *)
Definition try_except {A} (body : M A) (handler : exn -> M A) : M A :=
  match body with
  | (out, Ok a) => (out, Ok a)
  | (out, Raise e) => let (out', r) := handler e in ((out ++ out')%list, r)
  end.

(** [try: body / finally: fin]: [fin] runs on every exit path and the
    outcome of [body] is kept, unless [fin] itself raises. *)
Definition try_finally {A} (body : M A) (fin : M unit) : M A :=
  match body, fin with
  | (out, r), (out', Ok _) => ((out ++ out')%list, r)
  | (out, _), (out', Raise e) => ((out ++ out')%list, Raise e)
  end.

Declare Scope py_scope.
Delimit Scope py_scope with py.
Notation "x <- c1 ;; c2" := (bind c1 (fun x => c2))
  (at level 61, c1 at next level, right associativity) : py_scope.
Notation "c1 ;;; c2" := (bind c1 (fun _ => c2))
  (at level 61, right associativity) : py_scope.

Definition stdout {A} (m : M A) : list string := fst m.
Definition outcome {A} (m : M A) : Result A := snd m.

Definition raises {A} (m : M A) : Prop := exists e, outcome m = Raise e.
Definition returns {A} (m : M A) (a : A) : Prop := outcome m = Ok a.

(** ** Strings *)

Definition LF : ascii := ascii_of_nat 10.
Definition QUOTE : ascii := ascii_of_nat 34.
Definition BACKSLASH : ascii := ascii_of_nat 92.

Definition chr (c : ascii) : string := String c EmptyString.

(** [''.join(xs)] *)
Fixpoint join (xs : list string) : string :=
  match xs with
  | [] => EmptyString
  | x :: xs' => x ++ join xs'
  end.

(** [s.startswith(p)] *)
Definition startswith (s p : string) : bool := String.prefix p s.

Fixpoint rev_string (s : string) : string :=
  match s with
  | EmptyString => EmptyString
  | String c s' => rev_string s' ++ chr c
  end.

(** [s.endswith(p)] *)
Definition endswith (s p : string) : bool :=
  String.prefix (rev_string p) (rev_string s).

(** [s.replace(old, new)] for a non-empty [old]: every occurrence, found
    left to right without overlap.  [skip] counts the characters of an
    occurrence already consumed. *)
Fixpoint replace_from (old new : string) (skip : nat) (s : string) : string :=
  match s with
  | EmptyString => EmptyString
  | String c s' =>
      match skip with
      | S k => replace_from old new k s'
      | O =>
          if String.prefix old s
          then new ++ replace_from old new (Nat.pred (String.length old)) s'
          else String c (replace_from old new O s')
      end
  end.

Definition replace (s old new : string) : string := replace_from old new O s.

(** [str.isspace] on one character, for code points below 256. *)
Definition isspace (c : ascii) : bool :=
  let n := nat_of_ascii c in
  ((9 <=? n) && (n <=? 13) || (28 <=? n) && (n <=? 32)
   || (n =? 133) || (n =? 160))%nat.

Fixpoint lstrip (s : string) : string :=
  match s with
  | EmptyString => EmptyString
  | String c s' => if isspace c then lstrip s' else s
  end.

(** [s.strip()] *)
Definition strip (s : string) : string :=
  rev_string (lstrip (rev_string (lstrip s))).

Definition isdigit (c : ascii) : bool :=
  let n := nat_of_ascii c in ((48 <=? n) && (n <=? 57))%nat.

Definition digit_value (c : ascii) : Z := Z.of_nat (nat_of_ascii c) - 48.

(** The digits of a decimal literal: at least one digit, single
    underscores allowed between digits only. *)
Fixpoint parse_digits (after_digit : bool) (acc : Z) (s : string) : option Z :=
  match s with
  | EmptyString => if after_digit then Some acc else None
  | String c s' =>
      if isdigit c then parse_digits true (10 * acc + digit_value c) s'
      else if Ascii.eqb c "_"
           then (if after_digit then parse_digits false acc s' else None)
           else None
  end.

(** The characters [int] skips around a literal: the ASCII white space
    and, among the code points from 128 to 255, the two Unicode spaces.
    [str.isspace] also holds of the separators 28 to 31, which [int]
    rejects. *)
Definition is_int_space (c : ascii) : bool :=
  let n := nat_of_ascii c in
  ((9 <=? n) && (n <=? 13) || (n =? 32) || (n =? 133) || (n =? 160))%nat.

Fixpoint int_lstrip (s : string) : string :=
  match s with
  | EmptyString => EmptyString
  | String c s' => if is_int_space c then int_lstrip s' else s
  end.

Definition int_strip (s : string) : string :=
  rev_string (int_lstrip (rev_string (int_lstrip s))).

(** Number of digit characters of a literal. *)
Fixpoint digit_count (s : string) : nat :=
  match s with
  | EmptyString => O
  | String c s' => if isdigit c then S (digit_count s') else digit_count s'
  end.

(** [sys.get_int_max_str_digits()], at its default. *)
Definition int_max_str_digits : nat := 4300.

(** [int(s)] on a string, base 10: surrounding white space is skipped,
    an optional sign precedes the digits, and a literal of more than
    [int_max_str_digits] digits is refused.  [None] stands for
    [ValueError].  Strings are sequences of code points below 256, so the
    non-ASCII decimal digits Python also accepts do not occur. *)
Definition int_of_str (s : string) : option Z :=
  let literal := int_strip s in
  if (int_max_str_digits <? digit_count literal)%nat then None
  else
    match literal with
    | String c r =>
        if Ascii.eqb c "-" then option_map Z.opp (parse_digits false 0 r)
        else if Ascii.eqb c "+" then parse_digits false 0 r
        else parse_digits false 0 (String c r)
    | EmptyString => None
    end.

Definition py_int (s : string) : M Z :=
  match int_of_str s with
  | Some n => ret n
  | None => raise (mkExn ValueError ("invalid literal for int() with base 10: '" ++ s ++ "'"))
  end.

(** [str(n)] for an integer. *)
Definition str_of_int (n : Z) : string := NilZero.string_of_int (Z.to_int n).

(** [f.readlines()] on text already decoded and newline-translated: the
    lines with their terminators kept; the last line may lack one. *)
Fixpoint readlines (s : string) : list string :=
  match s with
  | EmptyString => []
  | String c s' =>
      if Ascii.eqb c LF then chr c :: readlines s'
      else match readlines s' with
           | [] => [chr c]
           | l :: ls => String c l :: ls
           end
  end.

(** The slice [l[start:]] for an arbitrary integer [start]. *)
Definition slice_from {A} (start : Z) (l : list A) : list A :=
  let len := Z.of_nat (List.length l) in
  let lo := if start <? 0 then Z.max (start + len) 0 else Z.min start len in
  skipn (Z.to_nat lo) l.

(** ** JSON data and [json.dumps] *)

(** The Python data handed to [send_json]: dicts keep their insertion
    order. *)
#[warnings="-register-all"]
Inductive json : Type :=
| JNull
| JBool (b : bool)
| JInt (n : Z)
| JStr (s : string)
| JArr (xs : list json)
| JObj (fields : list (string * json)).

Definition hex_digit (n : nat) : ascii :=
  if (n <? 10)%nat then ascii_of_nat (48 + n) else ascii_of_nat (87 + n).

(** One character of a JSON string under [ensure_ascii=True]. *)
Definition escape_char (c : ascii) : string :=
  let n := nat_of_ascii c in
  if Ascii.eqb c QUOTE then String BACKSLASH (chr QUOTE)
  else if Ascii.eqb c BACKSLASH then String BACKSLASH (chr BACKSLASH)
  else if (n =? 10)%nat then String BACKSLASH "n"
  else if (n =? 13)%nat then String BACKSLASH "r"
  else if (n =? 9)%nat then String BACKSLASH "t"
  else if (n =? 8)%nat then String BACKSLASH "b"
  else if (n =? 12)%nat then String BACKSLASH "f"
  else if ((32 <=? n) && (n <=? 126))%nat then chr c
  else String BACKSLASH
         ("u00" ++ String (hex_digit (n / 16)) (chr (hex_digit (n mod 16)))).

Fixpoint escape_string (s : string) : string :=
  match s with
  | EmptyString => EmptyString
  | String c s' => escape_char c ++ escape_string s'
  end.

Definition json_string (s : string) : string :=
  String QUOTE (escape_string s ++ chr QUOTE).

(** [json.dumps(data)] with the default separators. *)
Fixpoint json_dumps (j : json) : string :=
  match j with
  | JNull => "null"
  | JBool true => "true"
  | JBool false => "false"
  | JInt n => str_of_int n
  | JStr s => json_string s
  | JArr xs =>
      "[" ++ (fix items (l : list json) : string :=
                match l with
                | [] => EmptyString
                | x :: rest =>
                    match rest with
                    | [] => json_dumps x
                    | _ :: _ => json_dumps x ++ ", " ++ items rest
                    end
                end) xs ++ "]"
  | JObj fields =>
      "{" ++ (fix items (l : list (string * json)) : string :=
                match l with
                | [] => EmptyString
                | (k, v) :: rest =>
                    match rest with
                    | [] => json_string k ++ ": " ++ json_dumps v
                    | _ :: _ => json_string k ++ ": " ++ json_dumps v ++ ", " ++ items rest
                    end
                end) fields ++ "}"
  end.

(** Field lookup in a dict. *)
Fixpoint json_get (key : string) (fields : list (string * json)) : option json :=
  match fields with
  | [] => None
  | (k, v) :: rest => if String.eqb k key then Some v else json_get key rest
  end.

(** [s.encode()]: the UTF-8 bytes of a string of code points below
    256, one byte below 128 and two from there on. *)
Fixpoint encode (s : string) : string :=
  match s with
  | EmptyString => EmptyString
  | String c s' =>
      let n := nat_of_ascii c in
      if (n <? 128)%nat then String c (encode s')
      else String (ascii_of_nat (192 + n / 64))
             (String (ascii_of_nat (128 + n mod 64)) (encode s'))
  end.

(** ** The monitored store *)

(** A value held in a column or bound to a statement parameter. *)
Inductive sqlval : Type :=
| SNull
| SInt (n : Z)
| SText (s : string).

(** A fetched row as [dict(row)]: column names with their values, in
    column order. *)
Definition row : Type := list (string * sqlval).

Definition json_of_sqlval (v : sqlval) : json :=
  match v with
  | SNull => JNull
  | SInt n => JInt n
  | SText s => JStr s
  end.

Definition json_of_row (r : row) : json :=
  JObj (map (fun kv => (fst kv, json_of_sqlval (snd kv))) r).

Record Thread : Type := mkThread {
  t_id : string;
  t_name : string;
  t_mode : string;
  t_status : string;
  t_phase : sqlval;
  t_template : sqlval;
  t_session_id : sqlval;
  t_worktree : sqlval;
  t_context : sqlval;
  t_created_at : string;
  t_updated_at : string
}.

Record Event : Type := mkEvent {
  ev_id : Z;
  ev_type : string;
  ev_source : sqlval;
  ev_target : sqlval;
  ev_data : sqlval;
  ev_processed : Z;
  ev_timestamp : string
}.

Record Worktree : Type := mkWorktree {
  wt_id : string;
  wt_thread_id : string;
  wt_path : string;
  wt_branch : string;
  wt_base_branch : string;
  wt_status : string;
  wt_created_at : string
}.

(** The content of [threads.db] as a connection sees it.  A table that
    is [None] does not exist in the file (a statement that names it
    fails); a file that is not a database at all has no table. *)
Record database : Type := mkDatabase {
  threads : option (list Thread);
  events : option (list Event);
  worktrees : option (list Worktree)
}.

(** ** The world the server reads *)

Definition path : Type := string.

(** [p / name] *)
Definition path_div (p : path) (name : string) : path := p ++ "/" ++ name.

Record World : Type := mkWorld {
  (** [os.environ.get] *)
  environ : string -> option string;
  (** [Path.home()] *)
  home : path;
  (** [Path.exists] *)
  path_exists : path -> bool;
  (** [open(p)] followed by reading the whole file as text *)
  open_read : path -> Result string;
  (** [sqlite3.connect(str(p))] on an existing path *)
  sqlite3_connect : path -> Result database;
  (** [os.kill(pid, sig)] *)
  os_kill : Z -> Z -> Result unit;
  (** [datetime.utcnow().isoformat()] *)
  utcnow_isoformat : string
}.

(** Truth value of a string: only the empty string is false. *)
Definition str_truthy (s : string) : bool :=
  match s with
  | EmptyString => false
  | String _ _ => true
  end.

(** ** Location resolver *)

(** [os.environ.get('CT_DATA_DIR')] is tested for truth, so an unset
    variable and one set to the empty string both fall through to the
    conventional directories. *)
Definition find_data_dir (w : World) : path :=
  let local := ".claude-threads" in
  let conventional :=
    if path_exists w local then local
    else
      let home_dir := path_div (home w) ".claude-threads" in
      if path_exists w home_dir then home_dir
      else local in
  match environ w "CT_DATA_DIR" with
  | Some d => if str_truthy d then d else conventional
  | None => conventional
  end.

(** ** HTTP requests and responses *)

(** The query string as [parse_qs] returns it: each name with its list
    of values. *)
Definition qs : Type := list (string * list string).

Fixpoint qs_get (name : string) (query : qs) : option (list string) :=
  match query with
  | [] => None
  | (k, vs) :: rest => if String.eqb k name then Some vs else qs_get name rest
  end.

Inductive response : Type :=
| Response (status : Z) (headers : list (string * string)) (body : string)
  (** [send_error(code)]: the error page of [http.server] *)
| ErrorResponse (code : Z).

Definition status_of (r : response) : Z :=
  match r with
  | Response s _ _ => s
  | ErrorResponse c => c
  end.

Definition body_of (r : response) : string :=
  match r with
  | Response _ _ b => b
  | ErrorResponse _ => EmptyString
  end.

(** ** The fixed statements *)

(** The statements the reference engine knows, by their text; the
    handlers below carry the text of their own statements.  The text of
    the triple-quoted statements is kept up to layout whitespace. *)
Definition SQL_COUNT_THREADS : string := "SELECT COUNT(*) FROM threads".
Definition SQL_COUNT_RUNNING : string :=
  "SELECT COUNT(*) FROM threads WHERE status = 'running'".
Definition SQL_COUNT_READY : string :=
  "SELECT COUNT(*) FROM threads WHERE status = 'ready'".
Definition SQL_COUNT_PENDING : string :=
  "SELECT COUNT(*) FROM events WHERE processed = 0".
Definition SQL_THREADS : string :=
  "SELECT id, name, mode, status, phase, template, session_id, worktree, context, created_at, updated_at FROM threads ORDER BY updated_at DESC LIMIT 100".
Definition SQL_THREAD_BY_ID : string := "SELECT * FROM threads WHERE id = ?".
Definition SQL_EVENTS : string :=
  "SELECT id, type, source, target, data, processed, timestamp FROM events ORDER BY timestamp DESC LIMIT ?".
Definition SQL_WORKTREES : string :=
  "SELECT w.id, w.thread_id, w.path, w.branch, w.base_branch, w.status, t.name as thread_name, t.status as thread_status FROM worktrees w LEFT JOIN threads t ON w.thread_id = t.id ORDER BY w.created_at DESC".

(** ** The server *)

Section Server.

(** The sqlite engine: what [conn.execute(sql, params)] followed by
    fetching yields on a connection.  Fetching is part of the call: a
    statement that fails while a later row is fetched is taken to fail
    as a whole, for [fetchall] and for [fetchone] alike. *)
Variable execute : database -> string -> list sqlval -> Result (list row).
(** The dashboard document served at [/]. *)
Variable DASHBOARD_HTML : string.
Variable w : World.
(** The module-level data directory, resolved once at start. *)
Variable DATA_DIR : path.

Local Open Scope py_scope.

Definition DB_PATH : path := path_div DATA_DIR "threads.db".

(** *** Read access layer *)

Definition get_db : M (option database) :=
  if negb (path_exists w DB_PATH) then ret None
  else
    conn <- lift (sqlite3_connect w DB_PATH) ;;
    ret (Some conn).

Definition query_db (sql : string) (params : list sqlval) : M (list row) :=
  conn <- get_db ;;
  match conn with
  | None => ret []
  | Some c =>
      try_finally
        (try_except
           (rows <- lift (execute c sql params) ;;
            ret rows)
           (fun e => print ("DB error: " ++ exn_msg e) ;;; ret []))
        (ret tt)
  end.

Definition scalar_db (sql : string) (params : list sqlval) : M sqlval :=
  conn <- get_db ;;
  match conn with
  | None => ret (SInt 0)
  | Some c =>
      try_finally
        (try_except
           (rows <- lift (execute c sql params) ;;
            ret match rows with
                | ((_, v) :: _) :: _ => v
                | _ => SInt 0
                end)
           (fun e => print ("DB error: " ++ exn_msg e) ;;; ret (SInt 0)))
        (ret tt)
  end.

Definition is_pid_running (pid_file : path) : M bool :=
  try_except
    (text <- lift (open_read w pid_file) ;;
     pid <- py_int (strip text) ;;
     lift (os_kill w pid 0) ;;;
     ret true)
    (fun _ => ret false).

Definition read_log_file (p : path) (lines : Z) : M string :=
  try_except
    (text <- lift (open_read w p) ;;
     let all_lines := readlines text in
     ret (join (slice_from (- lines) all_lines)))
    (fun _ => ret EmptyString).

(** *** Handlers *)

Definition send_json (data : json) : M response :=
  let body := encode (json_dumps data) in
  ret (Response 200
         [("Content-Type", "application/json");
          ("Content-Length", str_of_int (Z.of_nat (String.length body)));
          ("Access-Control-Allow-Origin", "*")]
         body).

Definition send_html (content : string) : M response :=
  let body := encode content in
  ret (Response 200
         [("Content-Type", "text/html; charset=utf-8");
          ("Content-Length", str_of_int (Z.of_nat (String.length body)))]
         body).

Definition send_error (code : Z) : M response := ret (ErrorResponse code).

Definition api_status : M json :=
  total <- scalar_db "SELECT COUNT(*) FROM threads" [] ;;
  running <- scalar_db "SELECT COUNT(*) FROM threads WHERE status = 'running'" [] ;;
  ready <- scalar_db "SELECT COUNT(*) FROM threads WHERE status = 'ready'" [] ;;
  events_pending <- scalar_db "SELECT COUNT(*) FROM events WHERE processed = 0" [] ;;
  orchestrator_running <- is_pid_running (path_div DATA_DIR "orchestrator.pid") ;;
  api_running <- is_pid_running (path_div DATA_DIR "api-server.pid") ;;
  ret (JObj
         [("threads", JObj [("total", json_of_sqlval total);
                            ("running", json_of_sqlval running);
                            ("ready", json_of_sqlval ready)]);
          ("events_pending", json_of_sqlval events_pending);
          ("orchestrator_running", JBool orchestrator_running);
          ("api_running", JBool api_running);
          ("timestamp", JStr (utcnow_isoformat w ++ "Z"))]).

Definition api_threads : M json :=
  rows <- query_db
            "SELECT id, name, mode, status, phase, template, session_id, worktree, context, created_at, updated_at FROM threads ORDER BY updated_at DESC LIMIT 100"
            [] ;;
  ret (JArr (map json_of_row rows)).

Definition api_thread_detail (thread_id : string) : M json :=
  rows <- query_db "SELECT * FROM threads WHERE id = ?" [SText thread_id] ;;
  ret match rows with
      | r :: _ => json_of_row r
      | [] => JObj [("error", JStr "Thread not found")]
      end.

Definition api_thread_logs (thread_id : string) (lines : Z) : M json :=
  let log_file :=
    path_div (path_div DATA_DIR "logs") ("thread-" ++ thread_id ++ ".log") in
  content <- read_log_file log_file (Z.min lines 500) ;;
  ret (JObj [("thread_id", JStr thread_id);
             ("lines", JInt lines);
             ("content", JStr content)]).

Definition api_events (limit : Z) : M json :=
  rows <- query_db
            "SELECT id, type, source, target, data, processed, timestamp FROM events ORDER BY timestamp DESC LIMIT ?"
            [SInt (Z.min limit 500)] ;;
  ret (JArr (map json_of_row rows)).

Definition api_worktrees : M json :=
  rows <- query_db
            "SELECT w.id, w.thread_id, w.path, w.branch, w.base_branch, w.status, t.name as thread_name, t.status as thread_status FROM worktrees w LEFT JOIN threads t ON w.thread_id = t.id ORDER BY w.created_at DESC"
            [] ;;
  ret (JArr (map json_of_row rows)).

Definition api_logs (lines : Z) : M json :=
  let log_file := path_div (path_div DATA_DIR "logs") "orchestrator.log" in
  content <- read_log_file log_file (Z.min lines 1000) ;;
  ret (JObj [("file", JStr "orchestrator.log");
             ("lines", JInt lines);
             ("content", JStr content)]).

(** *** Router *)

(** [int(query.get(name, [default])[0])] *)
Definition int_param (query : qs) (name : string) (default : Z) : M Z :=
  match qs_get name query with
  | None => ret default
  | Some [] => raise (mkExn IndexError "list index out of range")
  | Some (v :: _) => py_int v
  end.

(** [do_GET] on the path and the query string that [urlparse] and
    [parse_qs] extract from the request line. *)
Definition do_GET (path : string) (query : qs) : M response :=
  if String.eqb path "/" || String.eqb path "/index.html" then
    send_html DASHBOARD_HTML
  else if String.eqb path "/api/status" then
    data <- api_status ;; send_json data
  else if String.eqb path "/api/threads" then
    data <- api_threads ;; send_json data
  else if startswith path "/api/thread/" && endswith path "/logs" then
    let thread_id := replace (replace path "/api/thread/" EmptyString) "/logs" EmptyString in
    lines <- int_param query "lines" 50 ;;
    data <- api_thread_logs thread_id lines ;; send_json data
  else if startswith path "/api/thread/" then
    let thread_id := replace path "/api/thread/" EmptyString in
    data <- api_thread_detail thread_id ;; send_json data
  else if String.eqb path "/api/events" then
    limit <- int_param query "limit" 50 ;;
    data <- api_events limit ;; send_json data
  else if String.eqb path "/api/worktrees" then
    data <- api_worktrees ;; send_json data
  else if String.eqb path "/api/logs" then
    lines <- int_param query "lines" 100 ;;
    data <- api_logs lines ;; send_json data
  else
    send_error 404.

End Server.

(** ** Reference engine for the fixed statements *)

Definition thread_row (t : Thread) : row :=
  [("id", SText (t_id t)); ("name", SText (t_name t));
   ("mode", SText (t_mode t)); ("status", SText (t_status t));
   ("phase", t_phase t); ("template", t_template t);
   ("session_id", t_session_id t); ("worktree", t_worktree t);
   ("context", t_context t); ("created_at", SText (t_created_at t));
   ("updated_at", SText (t_updated_at t))].

Definition event_row (e : Event) : row :=
  [("id", SInt (ev_id e)); ("type", SText (ev_type e));
   ("source", ev_source e); ("target", ev_target e); ("data", ev_data e);
   ("processed", SInt (ev_processed e)); ("timestamp", SText (ev_timestamp e))].

(** One worktree joined with each thread it names, or with nulls. *)
Definition worktree_rows (ts : list Thread) (x : Worktree) : list row :=
  let base :=
    [("id", SText (wt_id x)); ("thread_id", SText (wt_thread_id x));
     ("path", SText (wt_path x)); ("branch", SText (wt_branch x));
     ("base_branch", SText (wt_base_branch x)); ("status", SText (wt_status x))] in
  match filter (fun t => String.eqb (wt_thread_id x) (t_id t)) ts with
  | [] => [(base ++ [("thread_name", SNull); ("thread_status", SNull)])%list]
  | owners =>
      map (fun t => (base ++ [("thread_name", SText (t_name t));
                              ("thread_status", SText (t_status t))])%list) owners
  end.

Section Sorting.
Context {A : Type} (key : A -> string).

Fixpoint insert_desc (x : A) (l : list A) : list A :=
  match l with
  | [] => [x]
  | y :: l' => if String.leb (key y) (key x) then x :: l else y :: insert_desc x l'
  end.

(** [ORDER BY key DESC]; rows with equal keys keep their table order. *)
Definition order_by_desc (l : list A) : list A := fold_right insert_desc [] l.
End Sorting.

(** [LIMIT n]: a negative bound means no bound. *)
Definition limit {A} (n : Z) (l : list A) : list A :=
  if n <? 0 then l else firstn (Z.to_nat n) l.

Definition no_such_table (name : string) : exn :=
  mkExn OperationalError ("no such table: " ++ name).

Definition bad_bindings : exn :=
  mkExn ProgrammingError "Incorrect number of bindings supplied.".

(** An integer binds as a 64-bit value; outside that range binding
    fails. *)
Definition int_binds (n : Z) : bool :=
  (- 9223372036854775808 <=? n) && (n <=? 9223372036854775807).

Definition int_too_large : exn :=
  mkExn OverflowError "Python int too large to convert to SQLite INTEGER".

Definition count_row (n : nat) : list row := [[("COUNT(*)", SInt (Z.of_nat n))]].

(** A statement over one table that takes no parameter. *)
Definition on_table {T} (name : string) (table : option (list T))
    (params : list sqlval) (k : list T -> list row) : Result (list row) :=
  match params, table with
  | _ :: _, _ => Raise bad_bindings
  | [], None => Raise (no_such_table name)
  | [], Some rows => Ok (k rows)
  end.

(** What sqlite answers to the statements the server issues.  Any other
    statement text is rejected: the server has no other. *)
Definition sqlite_execute (db : database) (sql : string) (params : list sqlval)
  : Result (list row) :=
  if String.eqb sql SQL_COUNT_THREADS then
    on_table "threads" (threads db) params (fun ts => count_row (List.length ts))
  else if String.eqb sql SQL_COUNT_RUNNING then
    on_table "threads" (threads db) params (fun ts =>
      count_row (List.length (filter (fun t => String.eqb (t_status t) "running") ts)))
  else if String.eqb sql SQL_COUNT_READY then
    on_table "threads" (threads db) params (fun ts =>
      count_row (List.length (filter (fun t => String.eqb (t_status t) "ready") ts)))
  else if String.eqb sql SQL_COUNT_PENDING then
    on_table "events" (events db) params (fun es =>
      count_row (List.length (filter (fun e => ev_processed e =? 0) es)))
  else if String.eqb sql SQL_THREADS then
    on_table "threads" (threads db) params (fun ts =>
      map thread_row (limit 100 (order_by_desc t_updated_at ts)))
  else if String.eqb sql SQL_THREAD_BY_ID then
    match params, threads db with
    | [v], Some ts =>
        match v with
        | SText s =>
            Ok (map thread_row (filter (fun t => String.eqb (t_id t) s) ts))
        | SInt n =>
            if int_binds n then
              Ok (map thread_row
                    (filter (fun t => String.eqb (t_id t) (str_of_int n)) ts))
            else Raise int_too_large
        | SNull => Ok []
        end
    | [_], None => Raise (no_such_table "threads")
    | _, _ => Raise bad_bindings
    end
  else if String.eqb sql SQL_EVENTS then
    match params, events db with
    | [SInt n], Some es =>
        if int_binds n
        then Ok (map event_row (limit n (order_by_desc ev_timestamp es)))
        else Raise int_too_large
    | [_], Some _ => Raise (mkExn DatabaseError "datatype mismatch")
    | [_], None => Raise (no_such_table "events")
    | _, _ => Raise bad_bindings
    end
  else if String.eqb sql SQL_WORKTREES then
    match params, worktrees db, threads db with
    | _ :: _, _, _ => Raise bad_bindings
    | [], None, _ => Raise (no_such_table "worktrees")
    | [], _, None => Raise (no_such_table "threads")
    | [], Some xs, Some ts =>
        Ok (flat_map (worktree_rows ts) (order_by_desc wt_created_at xs))
    end
  else
    Raise (mkExn OperationalError "statement outside the fixed set").

(** ** Vocabulary of the properties *)

Definition orchestrator_log (DATA_DIR : path) : path :=
  path_div (path_div DATA_DIR "logs") "orchestrator.log".

Definition thread_log (DATA_DIR : path) (thread_id : string) : path :=
  path_div (path_div DATA_DIR "logs") ("thread-" ++ thread_id ++ ".log").

(** The last [n] lines of a list of lines, in their order: what a tail
    of [n] lines means, whatever the sign of [n]. *)
Definition last_lines (n : Z) (l : list string) : list string :=
  skipn (List.length l - Z.to_nat n)%nat l.

(** Number of lines of a text. *)
Definition line_count (text : string) : nat := List.length (readlines text).

(** The store file is absent. *)
Definition store_missing (w : World) (DATA_DIR : path) : Prop :=
  path_exists w (DB_PATH DATA_DIR) = false.

(** The store file is present and a connection to it yields [db]. *)
Definition store_opens (w : World) (DATA_DIR : path) (db : database) : Prop :=
  path_exists w (DB_PATH DATA_DIR) = true /\
  sqlite3_connect w (DB_PATH DATA_DIR) = Ok db.

(** The statement fails with [e] on the connection. *)
Definition query_fails (execute : database -> string -> list sqlval -> Result (list row))
    (w : World) (DATA_DIR : path) (sql : string) (params : list sqlval) (e : exn) : Prop :=
  exists db, store_opens w DATA_DIR db /\ execute db sql params = Raise e.

(** The line [query_db] and [scalar_db] print for a failed statement. *)
Definition db_error_line (e : exn) : string := "DB error: " ++ exn_msg e.

(** The first column of the first row, [0] when there is none. *)
Definition first_value (rows : list row) : sqlval :=
  match rows with
  | ((_, v) :: _) :: _ => v
  | _ => SInt 0
  end.

(** The paths of the closed route table. *)
Definition matches_route (path : string) : bool :=
  String.eqb path "/" || String.eqb path "/index.html"
  || String.eqb path "/api/status" || String.eqb path "/api/threads"
  || startswith path "/api/thread/"
  || String.eqb path "/api/events" || String.eqb path "/api/worktrees"
  || String.eqb path "/api/logs".

(** The value of [name] in the query string, when there is one, reads
    as an integer. *)
Definition parses (query : qs) (name : string) : Prop :=
  match qs_get name query with
  | None => True
  | Some [] => False
  | Some (v :: _) => int_of_str v <> None
  end.

Definition count_status (status : string) (ts : list Thread) : Z :=
  Z.of_nat (List.length (filter (fun t => String.eqb (t_status t) status) ts)).

Definition count_pending (es : list Event) : Z :=
  Z.of_nat (List.length (filter (fun e => ev_processed e =? 0) es)).

(** The text [read_log_file] hands back for a slice bound [lines]. *)
Definition tail_text (w : World) (p : path) (lines : Z) : string :=
  match open_read w p with
  | Ok text => join (slice_from (- lines) (readlines text))
  | Raise _ => EmptyString
  end.

(** The dict [api_logs] builds. *)
Definition logs_reply (lines : Z) (content : string) : json :=
  JObj [("file", JStr "orchestrator.log");
        ("lines", JInt lines);
        ("content", JStr content)].

(** The dict [api_thread_logs] builds. *)
Definition thread_logs_reply (thread_id : string) (lines : Z) (content : string) : json :=
  JObj [("thread_id", JStr thread_id);
        ("lines", JInt lines);
        ("content", JStr content)].

(** A query string that carries one value for [name]. *)
Definition one_param (name value : string) : qs := [(name, [value])].

(** The PID file holds an integer and the probe of that process with
    signal [0] succeeds. *)
Definition pid_alive (w : World) (pid_file : path) : bool :=
  match open_read w pid_file with
  | Ok text =>
      match int_of_str (strip text) with
      | Some pid => match os_kill w pid 0 with Ok _ => true | Raise _ => false end
      | None => false
      end
  | Raise _ => false
  end.

(** The dict [api_status] builds. *)
Definition status_reply (total running ready pending : Z) (orchestrator api : bool)
    (stamp : string) : json :=
  JObj [("threads", JObj [("total", JInt total);
                          ("running", JInt running);
                          ("ready", JInt ready)]);
        ("events_pending", JInt pending);
        ("orchestrator_running", JBool orchestrator);
        ("api_running", JBool api);
        ("timestamp", JStr stamp)].

(** The in-band error of [api_thread_detail] and its serialisation. *)
Definition not_found_reply : json := JObj [("error", JStr "Thread not found")].

Definition not_found_body : string :=
  "{" ++ chr QUOTE ++ "error" ++ chr QUOTE ++ ": "
      ++ chr QUOTE ++ "Thread not found" ++ chr QUOTE ++ "}".

(** No row of the threads table bears [thread_id]; a missing store has
    no row either. *)
Definition thread_absent (w : World) (DATA_DIR : path) (thread_id : string) : Prop :=
  store_missing w DATA_DIR \/
  exists db ts, store_opens w DATA_DIR db /\ threads db = Some ts /\
                forall t, In t ts -> t_id t <> thread_id.

(** The store file is absent, or a connection to it is obtained. *)
Definition store_reachable (w : World) (DATA_DIR : path) : Prop :=
  store_missing w DATA_DIR \/ exists db, store_opens w DATA_DIR db.

(** The computation ends with a value. *)
Definition succeeds {A} (m : M A) : Prop := exists out a, m = (out, Ok a).

(** The computation ends with a response of status [200]. *)
Definition responds_200 (m : M response) : Prop :=
  exists out headers body, m = (out, Ok (Response 200 headers body)).

(** ** Fixtures *)

Definition file_not_found : exn := mkExn OSError "No such file or directory".
Definition no_such_process : exn := mkExn OSError "No such process".
Definition cannot_open : exn := mkExn OperationalError "unable to open database file".

(** Nothing exists: no variable, no file, no store, no process. *)
Definition bare_world : World :=
  {| environ := fun _ => None;
     home := "/home/op";
     path_exists := fun _ => false;
     open_read := fun _ => Raise file_not_found;
     sqlite3_connect := fun _ => Raise cannot_open;
     os_kill := fun _ _ => Raise no_such_process;
     utcnow_isoformat := "2024-01-01T00:00:00" |}.

Definition with_env (name value : string) (w : World) : World :=
  {| environ := fun n => if String.eqb n name then Some value else environ w n;
     home := home w;
     path_exists := path_exists w;
     open_read := open_read w;
     sqlite3_connect := sqlite3_connect w;
     os_kill := os_kill w;
     utcnow_isoformat := utcnow_isoformat w |}.

Definition with_dir (p : path) (w : World) : World :=
  {| environ := environ w;
     home := home w;
     path_exists := fun q => if String.eqb q p then true else path_exists w q;
     open_read := open_read w;
     sqlite3_connect := sqlite3_connect w;
     os_kill := os_kill w;
     utcnow_isoformat := utcnow_isoformat w |}.

Definition with_file (p : path) (text : string) (w : World) : World :=
  {| environ := environ w;
     home := home w;
     path_exists := fun q => if String.eqb q p then true else path_exists w q;
     open_read := fun q => if String.eqb q p then Ok text else open_read w q;
     sqlite3_connect := sqlite3_connect w;
     os_kill := os_kill w;
     utcnow_isoformat := utcnow_isoformat w |}.

Definition with_store (p : path) (db : database) (w : World) : World :=
  {| environ := environ w;
     home := home w;
     path_exists := fun q => if String.eqb q p then true else path_exists w q;
     open_read := open_read w;
     sqlite3_connect := fun q => if String.eqb q p then Ok db else sqlite3_connect w q;
     os_kill := os_kill w;
     utcnow_isoformat := utcnow_isoformat w |}.

Definition with_process (pid : Z) (w : World) : World :=
  {| environ := environ w;
     home := home w;
     path_exists := path_exists w;
     open_read := open_read w;
     sqlite3_connect := sqlite3_connect w;
     os_kill := fun p sig => if p =? pid then Ok tt else os_kill w p sig;
     utcnow_isoformat := utcnow_isoformat w |}.

Definition local_dir : path := ".claude-threads".

Definition a_thread (id status updated : string) : Thread :=
  {| t_id := id; t_name := id; t_mode := "automatic"; t_status := status;
     t_phase := SNull; t_template := SNull; t_session_id := SNull;
     t_worktree := SNull; t_context := SText "{}";
     t_created_at := "2024-01-01 00:00:00"; t_updated_at := updated |}.

Definition an_event (id processed : Z) (stamp : string) : Event :=
  {| ev_id := id; ev_type := "NOTE"; ev_source := SText "orchestrator";
     ev_target := SNull; ev_data := SNull; ev_processed := processed;
     ev_timestamp := stamp |}.

(** Five threads, two running, one ready, two other; three events, two
    of them unprocessed. *)
Definition five_threads : database :=
  {| threads := Some [a_thread "t1" "running" "2024-01-01 00:00:05";
                      a_thread "t2" "ready" "2024-01-01 00:00:04";
                      a_thread "t3" "running" "2024-01-01 00:00:03";
                      a_thread "t4" "completed" "2024-01-01 00:00:02";
                      a_thread "t5" "failed" "2024-01-01 00:00:01"];
     events := Some [an_event 1 0 "2024-01-01 00:00:01";
                     an_event 2 1 "2024-01-01 00:00:02";
                     an_event 3 0 "2024-01-01 00:00:03"];
     worktrees := Some [] |}.

(** A file that sqlite opens but that holds no table. *)
Definition no_tables : database :=
  {| threads := None; events := None; worktrees := None |}.

Definition fixture_world : World :=
  with_store (DB_PATH local_dir) five_threads (with_dir local_dir bare_world).

Definition nl (s : string) : string := s ++ chr LF.

(** A log of ten lines. *)
Definition ten_lines : string :=
  join (map nl ["l1"; "l2"; "l3"; "l4"; "l5"; "l6"; "l7"; "l8"; "l9"; "l10"]).

Definition two_lines : string := join (map nl ["first"; "second"]).

Definition log_world (text : string) : World :=
  with_file (orchestrator_log local_dir) text (with_dir local_dir bare_world).

(** The same text as the log of thread [t1] too. *)
Definition logs_world (text : string) : World :=
  with_file (thread_log local_dir "t1") text (log_world text).

Definition pid_file : path := path_div local_dir "orchestrator.pid".

(** A PID file with the given content; no process runs. *)
Definition pid_world (text : string) : World :=
  with_file pid_file text (with_dir local_dir bare_world).

(** ** The dashboard script *)

(** [str.replace(pattern, by)] of the script language with a string
    pattern: the first occurrence only. *)
Fixpoint replace_first (pattern by_ : string) (s : string) : string :=
  match s with
  | EmptyString => EmptyString
  | String c s' =>
      if String.prefix pattern s
      then by_ ++ String.substring (String.length pattern) (String.length s) s
      else String c (replace_first pattern by_ s')
  end.

(** [formatTimeAgo(timestamp)].  [seconds_since text] is
    [Math.floor((now - new Date(text)) / 1000)], [None] when the date is
    invalid and the difference is not a number; [timestamp] is [None] for
    [null]. *)
Definition formatTimeAgo (seconds_since : string -> option Z)
    (timestamp : option string) : string :=
  match timestamp with
  | None => "-"
  | Some EmptyString => "-"
  | Some ts =>
      match seconds_since (replace_first " " "T" ts ++ "Z") with
      | None => "NaNd ago"
      | Some diff =>
          if diff <? 0 then "just now"
          else if diff <? 60 then str_of_int diff ++ "s ago"
          else if diff <? 3600 then str_of_int (diff / 60) ++ "m ago"
          else if diff <? 86400 then str_of_int (diff / 3600) ++ "h ago"
          else str_of_int (diff / 86400) ++ "d ago"
      end
  end.

(** What the refresh timer sets off. *)
Inductive call : Type :=
| RefreshAll
| RefreshLogs.

(** The state the timer callback works on: the two script variables,
    the text of the countdown element and the refreshes set off so far. *)
Record Client : Type := mkClient {
  currentLogType : string;
  countdown : Z;
  refresh_countdown : Z;
  calls : list call
}.

(** [startAutoRefresh()] *)
Definition startAutoRefresh (c : Client) : Client :=
  {| currentLogType := currentLogType c;
     countdown := 3;
     refresh_countdown := 3;
     calls := calls c |}.

(** One firing of the interval callback. *)
Definition tick (c : Client) : Client :=
  let counted := countdown c - 1 in
  if counted <=? 0 then
    {| currentLogType := currentLogType c;
       countdown := 3;
       refresh_countdown := counted;
       calls := (calls c ++ RefreshAll ::
                 (if String.eqb (currentLogType c) "orchestrator"
                  then [RefreshLogs] else []))%list |}
  else
    {| currentLogType := currentLogType c;
       countdown := counted;
       refresh_countdown := counted;
       calls := calls c |}.

Fixpoint ticks (n : nat) (c : Client) : Client :=
  match n with
  | O => c
  | S k => tick (ticks k c)
  end.

Definition is_refresh_all (x : call) : bool :=
  match x with RefreshAll => true | RefreshLogs => false end.

Definition is_refresh_logs (x : call) : bool :=
  match x with RefreshLogs => true | RefreshAll => false end.

(** How often [refreshAll] and [refreshLogs] were set off. *)
Definition refreshes (c : Client) : nat :=
  List.length (filter is_refresh_all (calls c)).

Definition log_refreshes (c : Client) : nat :=
  List.length (filter is_refresh_logs (calls c)).

(** ** Vocabulary of the further properties *)

(** The routes whose handler reads a value of the query string. *)
Definition reads_param (path : string) : bool :=
  startswith path "/api/thread/" && endswith path "/logs"
  || String.eqb path "/api/events" || String.eqb path "/api/logs".

(** No [/] occurs in the string. *)
Fixpoint no_slash (s : string) : bool :=
  match s with
  | EmptyString => true
  | String c s' => negb (Ascii.eqb c "/") && no_slash s'
  end.

(** Value of a response header. *)
Fixpoint header (name : string) (headers : list (string * string)) : option string :=
  match headers with
  | [] => None
  | (k, v) :: rest => if String.eqb k name then Some v else header name rest
  end.

(** What every answer of [do_GET] looks like: the error page of an
    unknown path, or status 200 with a [Content-Length] that is the
    length of the body. *)
Definition well_formed (r : response) : Prop :=
  match r with
  | ErrorResponse code => code = 404
  | Response status headers body =>
      status = 200 /\
      header "Content-Length" headers
        = Some (str_of_int (Z.of_nat (String.length body)))
  end.

(** The answer carries the JSON content type and the cross-origin
    header. *)
Definition is_json_response (r : response) : Prop :=
  match r with
  | ErrorResponse _ => False
  | Response _ headers _ =>
      header "Content-Type" headers = Some "application/json" /\
      header "Access-Control-Allow-Origin" headers = Some "*"
  end.

(** The outcome, when it is a response, satisfies [P]. *)
Definition answers_with (P : response -> Prop) (m : M response) : Prop :=
  match outcome m with
  | Ok r => P r
  | Raise _ => True
  end.

Definition store_world (db : database) : World :=
  with_store (DB_PATH local_dir) db (with_dir local_dir bare_world).

(** The branch of [do_GET] a path selects, with the thread id the
    router takes from it. *)
Inductive route : Type :=
| RStatic
| RStatus
| RThreads
| RThreadLogs (thread_id : string)
| RThreadDetail (thread_id : string)
| REvents
| RWorktrees
| RLogs
| RUnknown.

Definition route_of (path : string) : route :=
  if String.eqb path "/" || String.eqb path "/index.html" then RStatic
  else if String.eqb path "/api/status" then RStatus
  else if String.eqb path "/api/threads" then RThreads
  else if startswith path "/api/thread/" && endswith path "/logs" then
    RThreadLogs (replace (replace path "/api/thread/" EmptyString) "/logs" EmptyString)
  else if startswith path "/api/thread/" then
    RThreadDetail (replace path "/api/thread/" EmptyString)
  else if String.eqb path "/api/events" then REvents
  else if String.eqb path "/api/worktrees" then RWorktrees
  else if String.eqb path "/api/logs" then RLogs
  else RUnknown.

(** What [do_GET] runs in each branch. *)
Definition dispatch (execute : database -> string -> list sqlval -> Result (list row))
    (html : string) (w : World) (DATA_DIR : path) (r : route) (query : qs)
  : M response :=
  match r with
  | RStatic => send_html html
  | RStatus => bind (api_status execute w DATA_DIR) send_json
  | RThreads => bind (api_threads execute w DATA_DIR) send_json
  | RThreadLogs thread_id =>
      bind (int_param query "lines" 50) (fun lines =>
      bind (api_thread_logs w DATA_DIR thread_id lines) send_json)
  | RThreadDetail thread_id =>
      bind (api_thread_detail execute w DATA_DIR thread_id) send_json
  | REvents =>
      bind (int_param query "limit" 50) (fun limit =>
      bind (api_events execute w DATA_DIR limit) send_json)
  | RWorktrees => bind (api_worktrees execute w DATA_DIR) send_json
  | RLogs =>
      bind (int_param query "lines" 100) (fun lines =>
      bind (api_logs w DATA_DIR lines) send_json)
  | RUnknown => send_error 404
  end.

(** The parameter of the query string a path makes [do_GET] read. *)
Definition param_read (path : string) : option string :=
  match route_of path with
  | RThreadLogs _ | RLogs => Some "lines"
  | REvents => Some "limit"
  | _ => None
  end.

(** The value of the parameter the route reads, when the route reads
    one and the query string has it, reads as an integer. *)
Definition param_parses (path : string) (query : qs) : Prop :=
  match param_read path with
  | Some name => parses query name
  | None => True
  end.


(** A literal of [n] zeros. *)
Fixpoint zeros (n : nat) : string :=
  match n with
  | O => EmptyString
  | S k => String "0" (zeros k)
  end.

(** The store file exists and cannot be opened, as when [threads.db] is
    a directory. *)
Definition unopenable_world : World :=
  with_dir (DB_PATH local_dir) (with_dir local_dir bare_world).

(** * Properties *)

(** ** The Python primitives on examples *)

Example int_examples :
  int_of_str "999999" = Some 999999 /\ int_of_str " -12 " = Some (-12) /\
  int_of_str "1_000" = Some 1000 /\ int_of_str "abc" = None /\
  int_of_str EmptyString = None /\ int_of_str "1__0" = None /\ int_of_str "- 5" = None /\
  str_of_int (-42) = "-42" /\ str_of_int 0 = "0".
Proof. repeat split; reflexivity. Qed.

Example readlines_example :
  readlines (String "a" (String LF (String "b" (String LF "c")))) =
  [String "a" (chr LF); String "b" (chr LF); "c"].
Proof. reflexivity. Qed.

Example replace_example :
  replace (replace "/api/thread/t1/logs" "/api/thread/" EmptyString) "/logs" EmptyString = "t1"
  /\ endswith "/api/thread/t1/logs" "/logs" = true
  /\ startswith "/api/thread/t1/logs" "/api/thread/" = true.
Proof. repeat split; reflexivity. Qed.

Example json_dumps_example :
  json_dumps (JObj [("a", JArr [JInt 1; JNull; JBool true]); ("b", JStr (nl "x"))])
  = "{" ++ chr QUOTE ++ "a" ++ chr QUOTE ++ ": [1, null, true], "
        ++ chr QUOTE ++ "b" ++ chr QUOTE ++ ": " ++ chr QUOTE ++ "x"
        ++ chr BACKSLASH ++ "n" ++ chr QUOTE ++ "}".
Proof. reflexivity. Qed.

Example slice_examples :
  slice_from (-2) [1; 2; 3; 4; 5] = [4; 5] /\
  slice_from (-9) [1; 2; 3] = [1; 2; 3] /\
  slice_from 0 [1; 2; 3] = [1; 2; 3] /\
  slice_from 2 [1; 2; 3] = [3] /\
  slice_from 7 [1; 2; 3] = [].
Proof. repeat split; reflexivity. Qed.

(** ** Lines and tails *)

Lemma join_readlines (s : string) : join (readlines s) = s.
Proof.
  induction s as [|c s IH]; simpl; [reflexivity|].
  destruct (Ascii.eqb c LF).
  - simpl. now rewrite IH.
  - destruct (readlines s) as [|l ls]; simpl in *; now rewrite <- IH.
Qed.

(** Dropping leading lines of a text leaves the lines of a text. *)
Lemma skipn_readlines (s : string) :
  forall k, exists s', skipn k (readlines s) = readlines s'.
Proof.
  induction s as [|c s IH]; intros k.
  - exists EmptyString. now destruct k.
  - destruct k as [|k]; [now exists (String c s)|].
    simpl. destruct (Ascii.eqb c LF); [apply IH|].
    destruct (readlines s) as [|l ls] eqn:E.
    + exists EmptyString. now destruct k.
    + simpl. destruct (IH (S k)) as [s' Hs']. now exists s'.
Qed.

Lemma readlines_join_skipn (s : string) (k : nat) :
  readlines (join (skipn k (readlines s))) = skipn k (readlines s).
Proof.
  destruct (skipn_readlines s k) as [s' ->]. now rewrite join_readlines.
Qed.

Lemma slice_from_tail {A} (n : Z) (l : list A) :
  1 <= n -> slice_from (- n) l = skipn (List.length l - Z.to_nat n) l.
Proof.
  intros Hn. unfold slice_from.
  destruct (Z.ltb_spec (- n) 0) as [_|H]; [|lia].
  f_equal. lia.
Qed.

Lemma slice_from_drop {A} (n : Z) (l : list A) :
  n <= 0 -> slice_from (- n) l = skipn (Z.to_nat (- n)) l.
Proof.
  intros Hn. unfold slice_from.
  destruct (Z.ltb_spec (- n) 0) as [H|_]; [lia|].
  destruct (Z.le_gt_cases (- n) (Z.of_nat (List.length l))) as [Hle|Hgt].
  - now rewrite Z.min_l.
  - rewrite Z.min_r by lia. rewrite Nat2Z.id.
    rewrite !skipn_all2; trivial; lia.
Qed.

Lemma slice_from_zero {A} (l : list A) : slice_from (- 0) l = l.
Proof. now rewrite slice_from_drop. Qed.

Lemma last_lines_length (n : Z) (l : list string) :
  0 <= n -> (Z.of_nat (List.length (last_lines n l)) <= n).
Proof.
  intros Hn. unfold last_lines. rewrite length_skipn. lia.
Qed.

Lemma last_lines_suffix (n : Z) (l : list string) :
  exists dropped, l = (dropped ++ last_lines n l)%list.
Proof.
  exists (firstn (List.length l - Z.to_nat n) l).
  unfold last_lines. now rewrite firstn_skipn.
Qed.

(** ** The monad *)

Lemma bind_ret {A B} (a : A) (k : A -> M B) : bind (ret a) k = k a.
Proof. unfold bind, ret. now destruct (k a). Qed.

Lemma bind_raise {A B} (e : exn) (k : A -> M B) : bind (raise e) k = raise e.
Proof. reflexivity. Qed.

Lemma bind_silent {A B} (r : Result A) (k : A -> M B) :
  bind (lift r) k = match r with Ok a => k a | Raise e => raise e end.
Proof. destruct r; [apply bind_ret | reflexivity]. Qed.

(** ** Read access layer *)

(** What [read_log_file] computes: never an exception, never output. *)
Lemma read_log_file_eq (w : World) (p : path) (lines : Z) :
  read_log_file w p lines =
  ret match open_read w p with
      | Ok text => join (slice_from (- lines) (readlines text))
      | Raise _ => EmptyString
      end.
Proof.
  unfold read_log_file. rewrite bind_silent.
  now destruct (open_read w p).
Qed.

(** What [is_pid_running] computes. *)
Lemma is_pid_running_eq (w : World) (f : path) :
  is_pid_running w f =
  ret match open_read w f with
      | Ok text =>
          match int_of_str (strip text) with
          | Some pid => match os_kill w pid 0 with Ok _ => true | Raise _ => false end
          | None => false
          end
      | Raise _ => false
      end.
Proof.
  unfold is_pid_running. rewrite bind_silent.
  destruct (open_read w f) as [text|e]; [|reflexivity].
  unfold py_int. destruct (int_of_str (strip text)) as [pid|]; [|reflexivity].
  rewrite bind_ret, bind_silent. now destruct (os_kill w pid 0).
Qed.

Section AccessLayer.
Variable execute : database -> string -> list sqlval -> Result (list row).
Variables (w : World) (DATA_DIR : path).

(** What [query_db] computes, case by case on the store. *)
Lemma query_db_eq (sql : string) (params : list sqlval) :
  query_db execute w DATA_DIR sql params =
  if path_exists w (DB_PATH DATA_DIR) then
    match sqlite3_connect w (DB_PATH DATA_DIR) with
    | Raise e => raise e
    | Ok db =>
        match execute db sql params with
        | Ok rows => ret rows
        | Raise e => ([db_error_line e], Ok [])
        end
    end
  else ret [].
Proof.
  unfold query_db, get_db.
  destruct (path_exists w (DB_PATH DATA_DIR)); cbn [negb]; [|reflexivity].
  rewrite bind_silent.
  destruct (sqlite3_connect w (DB_PATH DATA_DIR)) as [db|e]; [|reflexivity].
  rewrite bind_ret, bind_silent.
  now destruct (execute db sql params).
Qed.

Lemma scalar_db_eq (sql : string) (params : list sqlval) :
  scalar_db execute w DATA_DIR sql params =
  if path_exists w (DB_PATH DATA_DIR) then
    match sqlite3_connect w (DB_PATH DATA_DIR) with
    | Raise e => raise e
    | Ok db =>
        match execute db sql params with
        | Ok rows => ret (first_value rows)
        | Raise e => ([db_error_line e], Ok (SInt 0))
        end
    end
  else ret (SInt 0).
Proof.
  unfold scalar_db, get_db.
  destruct (path_exists w (DB_PATH DATA_DIR)); cbn [negb]; [|reflexivity].
  rewrite bind_silent.
  destruct (sqlite3_connect w (DB_PATH DATA_DIR)) as [db|e]; [|reflexivity].
  rewrite bind_ret, bind_silent.
  now destruct (execute db sql params).
Qed.

(** Once a connection is obtained, nothing is raised, whatever the
    statement does. *)
Lemma query_db_total (db : database) (sql : string) (params : list sqlval) :
  store_opens w DATA_DIR db ->
  (exists rows, returns (query_db execute w DATA_DIR sql params) rows) /\
  (exists v, returns (scalar_db execute w DATA_DIR sql params) v).
Proof.
  intros [Hex Hconn]. rewrite query_db_eq, scalar_db_eq, Hex, Hconn.
  destruct (execute db sql params); split; eexists; reflexivity.
Qed.

(** The two failures the access layer absorbs, for every statement and
    every parameter tuple: when the store file does not exist, or when
    the statement fails on the connection, [query_db] returns the empty
    list and [scalar_db] returns [0], no exception reaching the caller.
    A missing store prints nothing; a failing statement prints one
    [DB error] line and nothing else. *)
Lemma access_layer_degrades_to_empty (sql : string) (params : list sqlval) :
  store_missing w DATA_DIR \/ (exists e, query_fails execute w DATA_DIR sql params e) ->
  returns (query_db execute w DATA_DIR sql params) [] /\
  returns (scalar_db execute w DATA_DIR sql params) (SInt 0) /\
  (store_missing w DATA_DIR ->
     stdout (query_db execute w DATA_DIR sql params) = [] /\
     stdout (scalar_db execute w DATA_DIR sql params) = []) /\
  (forall e, query_fails execute w DATA_DIR sql params e ->
     stdout (query_db execute w DATA_DIR sql params) = [db_error_line e] /\
     stdout (scalar_db execute w DATA_DIR sql params) = [db_error_line e]).
Proof.
  intros H. rewrite query_db_eq, scalar_db_eq.
  unfold store_missing, query_fails, store_opens in *.
  destruct H as [Hmiss | (e & db & (Hex & Hconn) & Hfail)].
  - rewrite Hmiss. split; [reflexivity|]. split; [reflexivity|].
    split; [intros _; split; reflexivity|].
    intros e (db & (Hex & _) & _). congruence.
  - rewrite Hex, Hconn, Hfail. split; [reflexivity|]. split; [reflexivity|].
    split; [intros; discriminate|].
    intros e' (db' & (_ & Hconn') & Hfail').
    assert (e' = e) as -> by congruence. split; reflexivity.
Qed.

End AccessLayer.

(** A store file without tables: the count statement fails, the failure
    is printed and the caller sees the empty list and [0]. *)
Lemma access_layer_degrades_on_failing_query :
  let w := with_store (DB_PATH local_dir) no_tables bare_world in
  (store_missing w local_dir \/
   (exists e, query_fails sqlite_execute w local_dir SQL_COUNT_THREADS [] e)) /\
  query_db sqlite_execute w local_dir SQL_COUNT_THREADS []
    = (["DB error: no such table: threads"], Ok []) /\
  scalar_db sqlite_execute w local_dir SQL_COUNT_THREADS []
    = (["DB error: no such table: threads"], Ok (SInt 0)).
Proof.
  intros w.
  assert (Hq : query_fails sqlite_execute w local_dir SQL_COUNT_THREADS []
                 (no_such_table "threads")).
  { exists no_tables. repeat split; reflexivity. }
  assert (H : store_missing w local_dir \/
              (exists e, query_fails sqlite_execute w local_dir SQL_COUNT_THREADS [] e)).
  { right. now exists (no_such_table "threads"). }
  split; [exact H|].
  destruct (access_layer_degrades_to_empty sqlite_execute w local_dir
              SQL_COUNT_THREADS [] H) as (Hr & Hs & _ & Hlog).
  destruct (Hlog _ Hq) as [Ho Ho'].
  unfold returns, outcome, stdout in *.
  destruct (query_db sqlite_execute w local_dir SQL_COUNT_THREADS []) as [o r].
  destruct (scalar_db sqlite_execute w local_dir SQL_COUNT_THREADS []) as [o' r'].
  simpl in *. subst. split; reflexivity.
Defined.

(** ** Log tails *)

Lemma tail_text_line_count (w : World) (p : path) (n : Z) :
  1 <= n -> Z.of_nat (line_count (tail_text w p n)) <= n.
Proof.
  intros Hn. unfold tail_text, line_count.
  destruct (open_read w p) as [text|e]; [|simpl; lia].
  rewrite slice_from_tail, readlines_join_skipn, length_skipn by exact Hn.
  lia.
Qed.

Lemma api_logs_eq (w : World) (DATA_DIR : path) (lines : Z) :
  api_logs w DATA_DIR lines =
  ret (logs_reply lines (tail_text w (orchestrator_log DATA_DIR) (Z.min lines 1000))).
Proof.
  unfold api_logs. rewrite read_log_file_eq, bind_ret. reflexivity.
Qed.

Lemma api_thread_logs_eq (w : World) (DATA_DIR : path) (thread_id : string) (lines : Z) :
  api_thread_logs w DATA_DIR thread_id lines =
  ret (thread_logs_reply thread_id lines
         (tail_text w (thread_log DATA_DIR thread_id) (Z.min lines 500))).
Proof.
  unfold api_thread_logs. rewrite read_log_file_eq, bind_ret. reflexivity.
Qed.

Section Routing.
Variable execute : database -> string -> list sqlval -> Result (list row).
Variables (html : string) (w : World) (DATA_DIR : path).

Local Open Scope py_scope.

Lemma route_logs (query : qs) :
  do_GET execute html w DATA_DIR "/api/logs" query =
  (lines <- int_param query "lines" 100 ;;
   data <- api_logs w DATA_DIR lines ;; send_json data).
Proof. reflexivity. Qed.

Lemma route_events (query : qs) :
  do_GET execute html w DATA_DIR "/api/events" query =
  (limit <- int_param query "limit" 50 ;;
   data <- api_events execute w DATA_DIR limit ;; send_json data).
Proof. reflexivity. Qed.

Lemma route_status (query : qs) :
  do_GET execute html w DATA_DIR "/api/status" query =
  (data <- api_status execute w DATA_DIR ;; send_json data).
Proof. reflexivity. Qed.

Lemma int_param_one (name value : string) (default n : Z) :
  int_of_str value = Some n ->
  int_param (one_param name value) name default = ret n.
Proof.
  intros H. unfold int_param, one_param. simpl.
  rewrite String.eqb_refl. unfold py_int. now rewrite H.
Qed.

(** A request for [lines=v] on [/api/logs], when [v] reads as [n]. *)
Lemma do_GET_logs (v : string) (n : Z) :
  int_of_str v = Some n ->
  do_GET execute html w DATA_DIR "/api/logs" (one_param "lines" v) =
  send_json (logs_reply n (tail_text w (orchestrator_log DATA_DIR) (Z.min n 1000))).
Proof.
  intros H. rewrite route_logs, (int_param_one _ _ _ _ H), bind_ret.
  rewrite api_logs_eq, bind_ret. reflexivity.
Qed.

End Routing.

Section LogTails.
Variable execute : database -> string -> list sqlval -> Result (list row).
Variables (html : string) (w : World) (DATA_DIR : path).

Local Open Scope py_scope.

(** C10.  The [lines] field of the reply of [/api/logs] and of
    [/api/thread/{id}/logs] is the requested integer itself, not the
    clamped one: a request for [lines=999999] is answered with
    [lines = 999999] while the content holds at most 1000 lines. *)
Theorem lines_field_echoes_request (thread_id : string) (requested : Z) :
  (exists content,
     api_logs w DATA_DIR requested = ret (logs_reply requested content) /\
     json_get "lines" [("file", JStr "orchestrator.log"); ("lines", JInt requested);
                       ("content", JStr content)] = Some (JInt requested)) /\
  (exists content,
     api_thread_logs w DATA_DIR thread_id requested =
     ret (thread_logs_reply thread_id requested content) /\
     json_get "lines" [("thread_id", JStr thread_id); ("lines", JInt requested);
                       ("content", JStr content)] = Some (JInt requested)) /\
  (exists content,
     do_GET execute html w DATA_DIR "/api/logs" (one_param "lines" "999999") =
     send_json (logs_reply 999999 content) /\
     content = tail_text w (orchestrator_log DATA_DIR) 1000 /\
     (line_count content <= 1000)%nat /\
     Z.min 999999 1000 <> 999999).
Proof.
  split; [eexists; split; [apply api_logs_eq | reflexivity]|].
  split; [eexists; split; [apply api_thread_logs_eq | reflexivity]|].
  eexists. split; [apply do_GET_logs; reflexivity|].
  split; [reflexivity|]. split; [|discriminate].
  pose proof (tail_text_line_count w (orchestrator_log DATA_DIR)
                (Z.min 999999 1000)) as H.
  change (Z.min 999999 1000) with 1000 in *. lia.
Qed.

(** Where the tail is what its name says.  For every bound of at least
    one line, [read_log_file] returns the last [lines] lines of a
    readable file, in their order and unchanged (the whole file when it
    is shorter), hence at most [lines] lines; for an unreadable file it
    returns the empty text, whatever the bound. *)
Lemma read_log_file_tail (p : path) (lines : Z) :
  (1 <= lines ->
   forall text, open_read w p = Ok text ->
     read_log_file w p lines = ret (join (last_lines lines (readlines text))) /\
     readlines (join (last_lines lines (readlines text)))
       = last_lines lines (readlines text) /\
     (exists dropped, readlines text = (dropped ++ last_lines lines (readlines text))%list) /\
     Z.of_nat (List.length (last_lines lines (readlines text))) <= lines) /\
  (forall e, open_read w p = Raise e -> read_log_file w p lines = ret EmptyString).
Proof.
  split.
  - intros Hn text Hopen. rewrite read_log_file_eq, Hopen.
    rewrite slice_from_tail by exact Hn. unfold last_lines.
    split; [reflexivity|]. split; [apply readlines_join_skipn|].
    split; [apply (last_lines_suffix lines)|].
    apply (last_lines_length lines). lia.
  - intros e Hopen. now rewrite read_log_file_eq, Hopen.
Qed.

(** C9.  The clamp bounds from above only.  On a readable log, a
    request for [0] lines is answered with the whole file, and a request
    for [- k] lines with every line but the first [k], on [/api/logs] and
    on [/api/thread/{id}/logs] alike. *)
Theorem clamp_bounds_only_from_above (thread_id : string) (text : string) :
  (open_read w (orchestrator_log DATA_DIR) = Ok text ->
     api_logs w DATA_DIR 0 = ret (logs_reply 0 text) /\
     forall k, 0 < k ->
       api_logs w DATA_DIR (- k) =
       ret (logs_reply (- k) (join (skipn (Z.to_nat k) (readlines text))))) /\
  (open_read w (thread_log DATA_DIR thread_id) = Ok text ->
     api_thread_logs w DATA_DIR thread_id 0 = ret (thread_logs_reply thread_id 0 text) /\
     forall k, 0 < k ->
       api_thread_logs w DATA_DIR thread_id (- k) =
       ret (thread_logs_reply thread_id (- k)
              (join (skipn (Z.to_nat k) (readlines text))))).
Proof.
  split; intros Hopen.
  - split.
    + rewrite api_logs_eq. unfold tail_text. rewrite Hopen.
      change (Z.min 0 1000) with 0. now rewrite slice_from_zero, join_readlines.
    + intros k Hk. rewrite api_logs_eq. unfold tail_text. rewrite Hopen.
      rewrite Z.min_l by lia. rewrite slice_from_drop by lia.
      now rewrite Z.opp_involutive.
  - split.
    + rewrite api_thread_logs_eq. unfold tail_text. rewrite Hopen.
      change (Z.min 0 500) with 0. now rewrite slice_from_zero, join_readlines.
    + intros k Hk. rewrite api_thread_logs_eq. unfold tail_text. rewrite Hopen.
      rewrite Z.min_l by lia. rewrite slice_from_drop by lia.
      now rewrite Z.opp_involutive.
Qed.

End LogTails.

(** A log of ten lines tailed with [lines = 3]: exactly the last three
    lines, in their order. *)
Lemma tail_three_of_ten :
  1 <= 3 /\
  open_read (log_world ten_lines) (orchestrator_log local_dir) = Ok ten_lines /\
  read_log_file (log_world ten_lines) (orchestrator_log local_dir) 3
    = ret (join (map nl ["l8"; "l9"; "l10"])) /\
  last_lines 3 (readlines ten_lines) = map nl ["l8"; "l9"; "l10"].
Proof.
  assert (H : 1 <= 3) by lia.
  assert (Hopen : open_read (log_world ten_lines) (orchestrator_log local_dir)
                  = Ok ten_lines) by reflexivity.
  split; [exact H|]. split; [exact Hopen|].
  destruct (read_log_file_tail (log_world ten_lines) (orchestrator_log local_dir) 3)
    as [Hok _].
  destruct (Hok H ten_lines Hopen) as (Heq & _).
  split; [rewrite Heq|]; reflexivity.
Defined.

(** C4.  The claim (and the docstring of [read_log_file], which reads
    the last N lines) fails on the code for a bound of [0] lines: the
    slice [all_lines[-0:]] is the whole list, so the two lines of the file
    come back, where the last [0] lines are no line at all. *)
Lemma tail_of_zero_lines_is_whole_file :
  open_read (log_world two_lines) (orchestrator_log local_dir) = Ok two_lines /\
  read_log_file (log_world two_lines) (orchestrator_log local_dir) 0 = ret two_lines /\
  last_lines 0 (readlines two_lines) = [] /\
  read_log_file (log_world two_lines) (orchestrator_log local_dir) 0
    <> ret (join (last_lines 0 (readlines two_lines))) /\
  ~ (Z.of_nat (line_count two_lines) <= 0).
Proof.
  split; [reflexivity|]. split; [reflexivity|]. split; [reflexivity|].
  split; [discriminate|]. vm_compute. intros H. now apply H.
Qed.

(** A log of ten lines asked for [0] and for [-8] lines. *)
Lemma zero_and_negative_lines_on_ten :
  open_read (logs_world ten_lines) (orchestrator_log local_dir) = Ok ten_lines /\
  open_read (logs_world ten_lines) (thread_log local_dir "t1") = Ok ten_lines /\
  0 < 8 /\
  api_logs (logs_world ten_lines) local_dir 0 = ret (logs_reply 0 ten_lines) /\
  api_logs (logs_world ten_lines) local_dir (- 8)
    = ret (logs_reply (- 8) (join (map nl ["l9"; "l10"]))) /\
  api_thread_logs (logs_world ten_lines) local_dir "t1" 0
    = ret (thread_logs_reply "t1" 0 ten_lines) /\
  api_thread_logs (logs_world ten_lines) local_dir "t1" (- 8)
    = ret (thread_logs_reply "t1" (- 8) (join (map nl ["l9"; "l10"]))).
Proof.
  assert (Ho : open_read (logs_world ten_lines) (orchestrator_log local_dir)
               = Ok ten_lines) by reflexivity.
  assert (Ht : open_read (logs_world ten_lines) (thread_log local_dir "t1")
               = Ok ten_lines) by reflexivity.
  assert (Hk : 0 < 8) by lia.
  destruct (clamp_bounds_only_from_above (logs_world ten_lines) local_dir "t1" ten_lines)
    as [Hlogs Hthread].
  destruct (Hlogs Ho) as [H0 Hneg]. destruct (Hthread Ht) as [H0' Hneg'].
  split; [exact Ho|]. split; [exact Ht|]. split; [exact Hk|].
  split; [exact H0|]. split; [exact (Hneg 8 Hk)|].
  split; [exact H0'|exact (Hneg' 8 Hk)].
Defined.

(** ** Process liveness *)

(** C8.  [is_pid_running] always returns a boolean and never raises.  It
    returns [True] exactly when the PID file can be read, its content
    reads as an integer and the probe of that process succeeds; a missing
    or unreadable file, a content that is no integer and a failed probe
    each yield [False]. *)
Theorem is_pid_running_never_raises (w : World) (f : path) :
  (exists b, is_pid_running w f = ret b) /\
  (is_pid_running w f = ret true <->
   exists text pid,
     open_read w f = Ok text /\ int_of_str (strip text) = Some pid /\
     os_kill w pid 0 = Ok tt) /\
  (forall e, open_read w f = Raise e -> is_pid_running w f = ret false) /\
  (forall text, open_read w f = Ok text -> int_of_str (strip text) = None ->
     is_pid_running w f = ret false) /\
  (forall text pid e, open_read w f = Ok text -> int_of_str (strip text) = Some pid ->
     os_kill w pid 0 = Raise e -> is_pid_running w f = ret false).
Proof.
  rewrite is_pid_running_eq.
  split; [eexists; reflexivity|]. split.
  - split.
    + intros H. destruct (open_read w f) as [text|e]; [|discriminate].
      destruct (int_of_str (strip text)) as [pid|] eqn:Hint; [|discriminate].
      destruct (os_kill w pid 0) as [[]|e] eqn:Hkill; [|discriminate].
      now exists text, pid.
    + intros (text & pid & -> & -> & ->). reflexivity.
  - split; [intros e ->; reflexivity|].
    split; [intros text -> ->; reflexivity|].
    intros text pid e -> -> ->. reflexivity.
Qed.

(** A PID file that holds no number, one that names a process that does
    not exist, and one that names a live process. *)
Lemma is_pid_running_on_pid_files :
  (open_read (pid_world "not-a-pid") pid_file = Ok "not-a-pid" /\
   int_of_str (strip "not-a-pid") = None /\
   is_pid_running (pid_world "not-a-pid") pid_file = ret false) /\
  (open_read (pid_world (nl "4242")) pid_file = Ok (nl "4242") /\
   int_of_str (strip (nl "4242")) = Some 4242 /\
   os_kill (pid_world (nl "4242")) 4242 0 = Raise no_such_process /\
   is_pid_running (pid_world (nl "4242")) pid_file = ret false) /\
  (os_kill (with_process 4242 (pid_world (nl "4242"))) 4242 0 = Ok tt /\
   is_pid_running (with_process 4242 (pid_world (nl "4242"))) pid_file = ret true) /\
  (open_read bare_world pid_file = Raise file_not_found /\
   is_pid_running bare_world pid_file = ret false).
Proof.
  split; [|split; [|split]].
  - destruct (is_pid_running_never_raises (pid_world "not-a-pid") pid_file)
      as (_ & _ & _ & Hbad & _).
    split; [reflexivity|]. split; [reflexivity|].
    exact (Hbad "not-a-pid" eq_refl eq_refl).
  - destruct (is_pid_running_never_raises (pid_world (nl "4242")) pid_file)
      as (_ & _ & _ & _ & Hdead).
    split; [reflexivity|]. split; [reflexivity|]. split; [reflexivity|].
    exact (Hdead (nl "4242") 4242 no_such_process eq_refl eq_refl eq_refl).
  - destruct (is_pid_running_never_raises
                (with_process 4242 (pid_world (nl "4242"))) pid_file)
      as (_ & Hiff & _).
    split; [reflexivity|]. apply Hiff.
    exists (nl "4242"), 4242. repeat split; reflexivity.
  - destruct (is_pid_running_never_raises bare_world pid_file)
      as (_ & _ & Hmissing & _).
    split; [reflexivity|]. exact (Hmissing file_not_found eq_refl).
Defined.

(** ** Location resolver *)

(** C6, as amended.  [find_data_dir] returns the value of the override
    variable when it is set to a non-empty value; otherwise (unset, or
    set to the empty string) the conventional directory under the working
    directory when it exists, else the one under the home directory when
    it exists, else the former whether it exists or not.  The result
    depends on the world only through that variable, the home directory
    and the two existence checks. *)
Theorem find_data_dir_precedence (w : World) :
  (forall d, environ w "CT_DATA_DIR" = Some d -> d <> EmptyString ->
     find_data_dir w = d) /\
  (environ w "CT_DATA_DIR" = None \/ environ w "CT_DATA_DIR" = Some EmptyString ->
     (path_exists w ".claude-threads" = true ->
        find_data_dir w = ".claude-threads") /\
     (path_exists w ".claude-threads" = false ->
      path_exists w (path_div (home w) ".claude-threads") = true ->
        find_data_dir w = path_div (home w) ".claude-threads") /\
     (path_exists w ".claude-threads" = false ->
      path_exists w (path_div (home w) ".claude-threads") = false ->
        find_data_dir w = ".claude-threads")) /\
  (forall w',
     environ w' "CT_DATA_DIR" = environ w "CT_DATA_DIR" ->
     home w' = home w ->
     path_exists w' ".claude-threads" = path_exists w ".claude-threads" ->
     path_exists w' (path_div (home w) ".claude-threads")
       = path_exists w (path_div (home w) ".claude-threads") ->
     find_data_dir w' = find_data_dir w).
Proof.
  unfold find_data_dir. split; [|split].
  - intros d -> Hd. destruct d; [contradiction|reflexivity].
  - intros Henv.
    assert (Hfall : match environ w "CT_DATA_DIR" with
                    | Some d => str_truthy d = false
                    | None => True
                    end) by (destruct Henv as [-> | ->]; [exact I|reflexivity]).
    destruct (environ w "CT_DATA_DIR") as [d|].
    + rewrite Hfall. repeat split.
      * now intros ->.
      * now intros -> ->.
      * now intros -> ->.
    + repeat split.
      * now intros ->.
      * now intros -> ->.
      * now intros -> ->.
  - intros w' -> -> -> ->. reflexivity.
Qed.

(** The override set to a directory wins over an existing conventional
    directory. *)
Lemma find_data_dir_with_override :
  environ (with_env "CT_DATA_DIR" "/srv/ct" (with_dir ".claude-threads" bare_world))
    "CT_DATA_DIR" = Some "/srv/ct" /\
  "/srv/ct" <> EmptyString /\
  find_data_dir (with_env "CT_DATA_DIR" "/srv/ct" (with_dir ".claude-threads" bare_world))
    = "/srv/ct".
Proof.
  assert (Hd : "/srv/ct" <> EmptyString) by discriminate.
  split; [reflexivity|]. split; [exact Hd|].
  destruct (find_data_dir_precedence
              (with_env "CT_DATA_DIR" "/srv/ct" (with_dir ".claude-threads" bare_world)))
    as [Hset _].
  exact (Hset "/srv/ct" eq_refl Hd).
Defined.

(** C6 fails when the override variable is set to the empty string: the
    resolver goes on to the conventional directories. *)
Lemma empty_override_is_ignored :
  environ (with_env "CT_DATA_DIR" EmptyString (with_dir "/home/op/.claude-threads" bare_world))
    "CT_DATA_DIR" = Some EmptyString /\
  find_data_dir (with_env "CT_DATA_DIR" EmptyString (with_dir "/home/op/.claude-threads" bare_world))
    = "/home/op/.claude-threads" /\
  find_data_dir (with_env "CT_DATA_DIR" EmptyString (with_dir "/home/op/.claude-threads" bare_world))
    <> EmptyString.
Proof. split; [reflexivity|]. split; [reflexivity|discriminate]. Qed.

(** ** Routing of the thread paths *)

Lemma prefix_split (p s : string) :
  String.prefix p s = true -> exists r, s = p ++ r.
Proof.
  revert s. induction p as [|c p IH]; intros s H.
  - now exists s.
  - destruct s as [|c' s]; [discriminate|]. simpl in H.
    destruct (ascii_dec c c') as [->|]; [|discriminate].
    destruct (IH s H) as [r ->]. now exists r.
Qed.

(** A path under [/api/thread/] is none of the literal routes tested
    before it. *)
Lemma thread_path_not_literal (path : string) :
  startswith path "/api/thread/" = true ->
  String.eqb path "/" = false /\ String.eqb path "/index.html" = false /\
  String.eqb path "/api/status" = false /\ String.eqb path "/api/threads" = false.
Proof.
  intros H. destruct (prefix_split _ _ H) as [r ->]. repeat split; reflexivity.
Qed.

Section ThreadRoutes.
Variable execute : database -> string -> list sqlval -> Result (list row).
Variables (html : string) (w : World) (DATA_DIR : path).

Local Open Scope py_scope.

Lemma route_thread_logs (path : string) (query : qs) :
  startswith path "/api/thread/" = true -> endswith path "/logs" = true ->
  do_GET execute html w DATA_DIR path query =
  (lines <- int_param query "lines" 50 ;;
   data <- api_thread_logs w DATA_DIR
             (replace (replace path "/api/thread/" EmptyString) "/logs" EmptyString) lines ;;
   send_json data).
Proof.
  intros Hs He. destruct (thread_path_not_literal path Hs) as (H1 & H2 & H3 & H4).
  unfold do_GET. now rewrite H1, H2, H3, H4, Hs, He.
Qed.

Lemma route_thread_detail (path : string) (query : qs) :
  startswith path "/api/thread/" = true -> endswith path "/logs" = false ->
  do_GET execute html w DATA_DIR path query =
  (data <- api_thread_detail execute w DATA_DIR
             (replace path "/api/thread/" EmptyString) ;;
   send_json data).
Proof.
  intros Hs He. destruct (thread_path_not_literal path Hs) as (H1 & H2 & H3 & H4).
  unfold do_GET. now rewrite H1, H2, H3, H4, Hs, He.
Qed.

End ThreadRoutes.

(** ** The reference engine on the statements of the claims *)

Lemma execute_thread_by_id (db : database) (thread_id : string) :
  sqlite_execute db SQL_THREAD_BY_ID [SText thread_id] =
  match threads db with
  | Some ts =>
      Ok (map thread_row (filter (fun t => String.eqb (t_id t) thread_id) ts))
  | None => Raise (no_such_table "threads")
  end.
Proof. reflexivity. Qed.

Lemma execute_count_threads (db : database) (ts : list Thread) :
  threads db = Some ts ->
  sqlite_execute db SQL_COUNT_THREADS [] =
    Ok [[("COUNT(*)", SInt (Z.of_nat (List.length ts)))]] /\
  sqlite_execute db SQL_COUNT_RUNNING [] =
    Ok [[("COUNT(*)", SInt (count_status "running" ts))]] /\
  sqlite_execute db SQL_COUNT_READY [] =
    Ok [[("COUNT(*)", SInt (count_status "ready" ts))]].
Proof.
  intros H. repeat split; unfold sqlite_execute, on_table; simpl; now rewrite H.
Qed.

Lemma execute_count_pending (db : database) (es : list Event) :
  events db = Some es ->
  sqlite_execute db SQL_COUNT_PENDING [] =
    Ok [[("COUNT(*)", SInt (count_pending es))]].
Proof.
  intros H. unfold sqlite_execute, on_table; simpl; now rewrite H.
Qed.

Lemma filter_none {A} (f : A -> bool) (l : list A) :
  (forall x, In x l -> f x = false) -> filter f l = [].
Proof.
  induction l as [|a l IH]; intros H; simpl; [reflexivity|].
  rewrite (H a (or_introl eq_refl)). apply IH. intros x Hx. apply H. now right.
Qed.

(** ** Thread detail and status *)

Section Dashboard.
Variables (html : string) (w : World) (DATA_DIR : path).

Lemma api_thread_detail_absent (thread_id : string) :
  thread_absent w DATA_DIR thread_id ->
  api_thread_detail sqlite_execute w DATA_DIR thread_id = ret not_found_reply.
Proof.
  intros H. unfold api_thread_detail. rewrite query_db_eq.
  destruct H as [Hmiss | (db & ts & (Hex & Hconn) & Hts & Hno)].
  - unfold store_missing in Hmiss. rewrite Hmiss, bind_ret. reflexivity.
  - rewrite Hex, Hconn, execute_thread_by_id, Hts.
    rewrite filter_none, bind_ret; [reflexivity|].
    intros t Ht. apply String.eqb_neq. now apply Hno.
Qed.

(** C3, as amended.  For every path under [/api/thread/] that does not
    end in [/logs], when the thread id the router takes from the path has
    no row in the threads table (or the store is missing), [do_GET]
    answers with status 200 and the body [{"error": "Thread not found"}]. *)
Theorem unknown_thread_is_reported_in_band (path : string) (query : qs) :
  startswith path "/api/thread/" = true ->
  endswith path "/logs" = false ->
  thread_absent w DATA_DIR (replace path "/api/thread/" EmptyString) ->
  do_GET sqlite_execute html w DATA_DIR path query =
  ret (Response 200
         [("Content-Type", "application/json");
          ("Content-Length", "29");
          ("Access-Control-Allow-Origin", "*")]
         not_found_body) /\
  json_dumps not_found_reply = not_found_body.
Proof.
  intros Hs He Habs. split; [|reflexivity].
  rewrite route_thread_detail by assumption.
  rewrite (api_thread_detail_absent _ Habs), bind_ret. reflexivity.
Qed.

Lemma status_of_open_store (query : qs) (db : database)
    (ts : list Thread) (es : list Event) :
  store_opens w DATA_DIR db -> threads db = Some ts -> events db = Some es ->
  do_GET sqlite_execute html w DATA_DIR "/api/status" query =
  send_json
    (status_reply (Z.of_nat (List.length ts))
       (count_status "running" ts) (count_status "ready" ts) (count_pending es)
       (pid_alive w (path_div DATA_DIR "orchestrator.pid"))
       (pid_alive w (path_div DATA_DIR "api-server.pid"))
       (utcnow_isoformat w ++ "Z")).
Proof.
  intros [Hex Hconn] Hts Hes.
  destruct (execute_count_threads db ts Hts) as (Ht & Hr & Hy).
  pose proof (execute_count_pending db es Hes) as Hp.
  unfold SQL_COUNT_THREADS, SQL_COUNT_RUNNING, SQL_COUNT_READY, SQL_COUNT_PENDING in *.
  rewrite route_status. unfold api_status.
  rewrite !scalar_db_eq, Hex, Hconn, Ht, Hr, Hy, Hp.
  rewrite !is_pid_running_eq, !bind_ret. reflexivity.
Qed.

Lemma status_of_missing_store (query : qs) :
  store_missing w DATA_DIR ->
  do_GET sqlite_execute html w DATA_DIR "/api/status" query =
  send_json
    (status_reply 0 0 0 0
       (pid_alive w (path_div DATA_DIR "orchestrator.pid"))
       (pid_alive w (path_div DATA_DIR "api-server.pid"))
       (utcnow_isoformat w ++ "Z")).
Proof.
  intros Hmiss. unfold store_missing in Hmiss.
  rewrite route_status. unfold api_status.
  rewrite !scalar_db_eq, Hmiss, !is_pid_running_eq, !bind_ret. reflexivity.
Qed.

(** On a store that opens and holds the tables, [/api/status] reports
    the number of rows of [threads], the number of those whose status is
    [running], the number of those whose status is [ready], and the number
    of rows of [events] whose [processed] is [0].  On a missing store the
    four counts are [0]. *)
Lemma status_counts_match_tables (query : qs) :
  (forall db ts es,
     store_opens w DATA_DIR db -> threads db = Some ts -> events db = Some es ->
     do_GET sqlite_execute html w DATA_DIR "/api/status" query =
     send_json
       (status_reply (Z.of_nat (List.length ts))
          (count_status "running" ts) (count_status "ready" ts) (count_pending es)
          (pid_alive w (path_div DATA_DIR "orchestrator.pid"))
          (pid_alive w (path_div DATA_DIR "api-server.pid"))
          (utcnow_isoformat w ++ "Z"))) /\
  (store_missing w DATA_DIR ->
     do_GET sqlite_execute html w DATA_DIR "/api/status" query =
     send_json
       (status_reply 0 0 0 0
          (pid_alive w (path_div DATA_DIR "orchestrator.pid"))
          (pid_alive w (path_div DATA_DIR "api-server.pid"))
          (utcnow_isoformat w ++ "Z"))).
Proof.
  split.
  - intros db ts es. apply status_of_open_store.
  - apply status_of_missing_store.
Qed.

End Dashboard.

(** [GET /api/thread/does-not-exist] on the store of five threads. *)
Lemma does_not_exist_is_reported_in_band :
  startswith "/api/thread/does-not-exist" "/api/thread/" = true /\
  endswith "/api/thread/does-not-exist" "/logs" = false /\
  thread_absent fixture_world local_dir "does-not-exist" /\
  do_GET sqlite_execute "<html>" fixture_world local_dir
    "/api/thread/does-not-exist" [] =
  ret (Response 200
         [("Content-Type", "application/json");
          ("Content-Length", "29");
          ("Access-Control-Allow-Origin", "*")]
         not_found_body).
Proof.
  assert (Habs : thread_absent fixture_world local_dir
                   (replace "/api/thread/does-not-exist" "/api/thread/" EmptyString)).
  { right. exists five_threads. eexists. split; [split; reflexivity|].
    split; [reflexivity|].
    intros t Ht. simpl in Ht.
    repeat (destruct Ht as [<-|Ht]; [discriminate|]). contradiction. }
  split; [reflexivity|]. split; [reflexivity|]. split; [exact Habs|].
  exact (proj1 (unknown_thread_is_reported_in_band "<html>" fixture_world local_dir
                  "/api/thread/does-not-exist" [] eq_refl eq_refl Habs)).
Defined.

(** The store of five threads, two running and one ready, with two
    unprocessed events. *)
Lemma status_of_five_threads :
  store_opens fixture_world local_dir five_threads /\
  do_GET sqlite_execute "<html>" fixture_world local_dir "/api/status" [] =
  send_json (status_reply 5 2 1 2 false false "2024-01-01T00:00:00Z").
Proof.
  assert (Hopen : store_opens fixture_world local_dir five_threads)
    by (split; reflexivity).
  split; [exact Hopen|].
  exact (proj1 (status_counts_match_tables "<html>" fixture_world local_dir [])
           five_threads _ _ Hopen eq_refl eq_refl).
Defined.

(** ** Completion of the request handler *)

Lemma succeeds_ret {A} (a : A) : succeeds (ret a).
Proof. now exists [], a. Qed.

Lemma succeeds_bind {A B} (m : M A) (k : A -> M B) :
  succeeds m -> (forall a, succeeds (k a)) -> succeeds (bind m k).
Proof.
  intros (out & a & ->) Hk. destruct (Hk a) as (out' & b & Hb).
  exists (out ++ out')%list, b. unfold bind. now rewrite Hb.
Qed.

Lemma responds_200_send_json (m : M json) :
  succeeds m -> responds_200 (bind m send_json).
Proof.
  intros (out & data & ->). unfold bind, send_json, ret.
  eexists _, _, _. reflexivity.
Qed.

Lemma responds_200_bind {A} (m : M A) (k : A -> M response) :
  succeeds m -> (forall a, responds_200 (k a)) -> responds_200 (bind m k).
Proof.
  intros (out & a & ->) Hk. destruct (Hk a) as (out' & headers & body & Hb).
  exists (out ++ out')%list, headers, body. unfold bind. now rewrite Hb.
Qed.

Lemma int_param_succeeds (query : qs) (name : string) (default : Z) :
  parses query name -> succeeds (int_param query name default).
Proof.
  unfold parses, int_param, py_int. intros H.
  destruct (qs_get name query) as [[|v vs]|]; [contradiction| |apply succeeds_ret].
  destruct (int_of_str v); [apply succeeds_ret|now contradiction H].
Qed.

Section Completion.
Variable execute : database -> string -> list sqlval -> Result (list row).
Variables (html : string) (w : World) (DATA_DIR : path).
Hypothesis reachable : store_reachable w DATA_DIR.

Lemma query_db_succeeds (sql : string) (params : list sqlval) :
  succeeds (query_db execute w DATA_DIR sql params).
Proof.
  rewrite query_db_eq.
  destruct reachable as [Hmiss | (db & Hex & Hconn)].
  - unfold store_missing in Hmiss. rewrite Hmiss. apply succeeds_ret.
  - rewrite Hex, Hconn. destruct (execute db sql params);
      [apply succeeds_ret | eexists _, _; reflexivity].
Qed.

Lemma scalar_db_succeeds (sql : string) (params : list sqlval) :
  succeeds (scalar_db execute w DATA_DIR sql params).
Proof.
  rewrite scalar_db_eq.
  destruct reachable as [Hmiss | (db & Hex & Hconn)].
  - unfold store_missing in Hmiss. rewrite Hmiss. apply succeeds_ret.
  - rewrite Hex, Hconn. destruct (execute db sql params);
      [apply succeeds_ret | eexists _, _; reflexivity].
Qed.

Lemma api_status_succeeds : succeeds (api_status execute w DATA_DIR).
Proof.
  unfold api_status.
  repeat (apply succeeds_bind; [apply scalar_db_succeeds | intros ?]).
  rewrite !is_pid_running_eq, !bind_ret. apply succeeds_ret.
Qed.

Lemma rows_handler_succeeds (sql : string) (params : list sqlval) :
  succeeds (bind (query_db execute w DATA_DIR sql params)
              (fun rows => ret (JArr (map json_of_row rows)))).
Proof.
  apply succeeds_bind; [apply query_db_succeeds | intros; apply succeeds_ret].
Qed.

Lemma api_thread_detail_succeeds (thread_id : string) :
  succeeds (api_thread_detail execute w DATA_DIR thread_id).
Proof.
  apply succeeds_bind; [apply query_db_succeeds | intros; apply succeeds_ret].
Qed.

End Completion.

(** The claim C5 fails on a query string value that is no integer:
    [int] raises [ValueError], nothing in [do_GET] catches it and no
    response is produced. *)
Lemma non_numeric_lines_escapes_handler :
  matches_route "/api/logs" = true /\
  do_GET sqlite_execute "<html>" bare_world local_dir "/api/logs"
    (one_param "lines" "abc")
  = raise (mkExn ValueError "invalid literal for int() with base 10: 'abc'") /\
  ~ responds_200 (do_GET sqlite_execute "<html>" bare_world local_dir "/api/logs"
                    (one_param "lines" "abc")).
Proof.
  split; [reflexivity|]. split; [reflexivity|].
  intros (out & headers & body & H). discriminate H.
Qed.


(** C3 fails for the thread id [logs], which has no row: the path
    [/api/thread/logs] ends in [/logs], so the router hands it to the
    log handler, and the answer is a log reply, not the in-band error. *)
Lemma thread_named_logs_gets_log_reply :
  thread_absent fixture_world local_dir "logs" /\
  do_GET sqlite_execute "<html>" fixture_world local_dir "/api/thread/logs" []
  = send_json (thread_logs_reply "logs" 50 EmptyString) /\
  do_GET sqlite_execute "<html>" fixture_world local_dir "/api/thread/logs" []
  <> send_json not_found_reply.
Proof.
  split.
  - right. exists five_threads. eexists. split; [split; reflexivity|].
    split; [reflexivity|].
    intros t Ht. simpl in Ht.
    repeat (destruct Ht as [<-|Ht]; [discriminate|]). contradiction.
  - split; [reflexivity|]. discriminate.
Qed.

(** * Further properties of the read path *)

(** ** Log reading *)

Lemma append_assoc (a b c : string) : (a ++ b) ++ c = a ++ (b ++ c).
Proof. induction a as [|x a IH]; simpl; [reflexivity|now rewrite IH]. Qed.

Lemma append_empty_r (a : string) : a ++ EmptyString = a.
Proof. induction a as [|x a IH]; simpl; [reflexivity|now rewrite IH]. Qed.

Lemma join_app (xs ys : list string) : join (xs ++ ys) = join xs ++ join ys.
Proof.
  induction xs as [|x xs IH]; simpl; [reflexivity|].
  now rewrite IH, append_assoc.
Qed.

Lemma slice_from_is_skipn {A} (start : Z) (l : list A) :
  exists k, slice_from start l = skipn k l.
Proof. unfold slice_from. eexists. reflexivity. Qed.

(** X1.  Whatever the bound, [read_log_file] raises nothing and prints
    nothing, and what it returns for a readable file is an end piece of
    the file's text that starts at a line boundary; for an unreadable
    file it is the empty text. *)
Theorem read_log_file_returns_end_piece (w : World) (p : path) (lines : Z) :
  exists content,
    read_log_file w p lines = ret content /\
    match open_read w p with
    | Ok text =>
        exists k, content = join (skipn k (readlines text)) /\
                  text = join (firstn k (readlines text)) ++ content
    | Raise _ => content = EmptyString
    end.
Proof.
  eexists. split; [apply read_log_file_eq|].
  destruct (open_read w p) as [text|e]; [|reflexivity].
  destruct (slice_from_is_skipn (- lines) (readlines text)) as [k ->].
  exists k. split; [reflexivity|].
  now rewrite <- join_app, firstn_skipn, join_readlines.
Qed.

(** X2.  A bound that is at least the number of lines of the file gives
    the whole file back, unchanged. *)
Theorem read_log_file_short_file (w : World) (p : path) (lines : Z) (text : string) :
  open_read w p = Ok text ->
  Z.of_nat (line_count text) <= lines ->
  read_log_file w p lines = ret text.
Proof.
  intros Hopen Hlen. rewrite read_log_file_eq, Hopen. unfold line_count in Hlen.
  destruct (Z.eq_dec lines 0) as [->|Hnz].
  - now rewrite slice_from_zero, join_readlines.
  - rewrite slice_from_tail by lia.
    replace (List.length (readlines text) - Z.to_nat lines)%nat with O by lia.
    simpl. now rewrite join_readlines.
Qed.

Lemma two_line_file_read_with_bound_five :
  open_read (log_world two_lines) (orchestrator_log local_dir) = Ok two_lines /\
  Z.of_nat (line_count two_lines) <= 5 /\
  read_log_file (log_world two_lines) (orchestrator_log local_dir) 5 = ret two_lines.
Proof.
  assert (Hopen : open_read (log_world two_lines) (orchestrator_log local_dir)
                  = Ok two_lines) by reflexivity.
  assert (Hlen : Z.of_nat (line_count two_lines) <= 5) by (vm_compute; discriminate).
  split; [exact Hopen|]. split; [exact Hlen|].
  exact (read_log_file_short_file _ _ 5 two_lines Hopen Hlen).
Defined.

(** X3.  Every request at or above the ceiling of a log endpoint is
    answered with the content of a request for exactly the ceiling; the
    replies differ in the echoed [lines] field only. *)
Theorem log_requests_saturate_at_ceiling (w : World) (DATA_DIR : path)
    (thread_id : string) (requested : Z) :
  (1000 <= requested ->
   api_logs w DATA_DIR requested =
   ret (logs_reply requested (tail_text w (orchestrator_log DATA_DIR) 1000)) /\
   api_logs w DATA_DIR 1000 =
   ret (logs_reply 1000 (tail_text w (orchestrator_log DATA_DIR) 1000))) /\
  (500 <= requested ->
   api_thread_logs w DATA_DIR thread_id requested =
   ret (thread_logs_reply thread_id requested
          (tail_text w (thread_log DATA_DIR thread_id) 500)) /\
   api_thread_logs w DATA_DIR thread_id 500 =
   ret (thread_logs_reply thread_id 500
          (tail_text w (thread_log DATA_DIR thread_id) 500))).
Proof.
  split; intros H.
  - rewrite !api_logs_eq. now rewrite Z.min_r by exact H.
  - rewrite !api_thread_logs_eq. now rewrite Z.min_r by exact H.
Qed.

Lemma ten_line_log_requested_with_5000 :
  1000 <= 5000 /\
  api_logs (logs_world ten_lines) local_dir 5000 = ret (logs_reply 5000 ten_lines) /\
  500 <= 5000 /\
  api_thread_logs (logs_world ten_lines) local_dir "t1" 5000
  = ret (thread_logs_reply "t1" 5000 ten_lines).
Proof.
  assert (H1 : 1000 <= 5000) by lia. assert (H2 : 500 <= 5000) by lia.
  destruct (log_requests_saturate_at_ceiling (logs_world ten_lines) local_dir "t1" 5000)
    as [Hl Ht].
  split; [exact H1|]. split; [exact (proj1 (Hl H1))|].
  split; [exact H2|exact (proj1 (Ht H2))].
Defined.

(** ** Store access *)

(** X5.  When the store opens but each of the four count statements
    fails, [/api/status] still answers: every count is [0] and the four
    failures are printed, one [DB error] line each, in the order total,
    running, ready, pending. *)
Theorem status_of_failing_store
    (execute : database -> string -> list sqlval -> Result (list row))
    (html : string) (w : World) (DATA_DIR : path) (query : qs) (db : database)
    (e1 e2 e3 e4 : exn) :
  store_opens w DATA_DIR db ->
  execute db SQL_COUNT_THREADS [] = Raise e1 ->
  execute db SQL_COUNT_RUNNING [] = Raise e2 ->
  execute db SQL_COUNT_READY [] = Raise e3 ->
  execute db SQL_COUNT_PENDING [] = Raise e4 ->
  do_GET execute html w DATA_DIR "/api/status" query =
  bind (print (db_error_line e1)) (fun _ =>
  bind (print (db_error_line e2)) (fun _ =>
  bind (print (db_error_line e3)) (fun _ =>
  bind (print (db_error_line e4)) (fun _ =>
  send_json
    (status_reply 0 0 0 0
       (pid_alive w (path_div DATA_DIR "orchestrator.pid"))
       (pid_alive w (path_div DATA_DIR "api-server.pid"))
       (utcnow_isoformat w ++ "Z")))))).
Proof.
  intros [Hex Hconn] H1 H2 H3 H4.
  unfold SQL_COUNT_THREADS, SQL_COUNT_RUNNING, SQL_COUNT_READY, SQL_COUNT_PENDING in *.
  rewrite route_status. unfold api_status.
  rewrite !scalar_db_eq, Hex, Hconn, H1, H2, H3, H4, !is_pid_running_eq.
  reflexivity.
Qed.

Lemma status_of_store_without_tables :
  store_opens (store_world no_tables) local_dir no_tables /\
  do_GET sqlite_execute "<html>" (store_world no_tables) local_dir "/api/status" [] =
  (["DB error: no such table: threads"; "DB error: no such table: threads";
    "DB error: no such table: threads"; "DB error: no such table: events"],
   Ok (Response 200
         [("Content-Type", "application/json");
          ("Content-Length",
           str_of_int (Z.of_nat (String.length
             (json_dumps (status_reply 0 0 0 0 false false "2024-01-01T00:00:00Z")))));
          ("Access-Control-Allow-Origin", "*")]
         (json_dumps (status_reply 0 0 0 0 false false "2024-01-01T00:00:00Z")))).
Proof.
  assert (Hopen : store_opens (store_world no_tables) local_dir no_tables)
    by (split; reflexivity).
  split; [exact Hopen|].
  exact (status_of_failing_store sqlite_execute "<html>" (store_world no_tables)
           local_dir [] no_tables _ _ _ _ Hopen eq_refl eq_refl eq_refl eq_refl).
Defined.

(** ** The router as a classification followed by a dispatch *)

Lemma do_GET_dispatch
    (execute : database -> string -> list sqlval -> Result (list row))
    (html : string) (w : World) (DATA_DIR : path) (path : string) (query : qs) :
  do_GET execute html w DATA_DIR path query =
  dispatch execute html w DATA_DIR (route_of path) query.
Proof.
  unfold do_GET, route_of.
  destruct (String.eqb path "/" || String.eqb path "/index.html"); [reflexivity|].
  destruct (String.eqb path "/api/status"); [reflexivity|].
  destruct (String.eqb path "/api/threads"); [reflexivity|].
  destruct (startswith path "/api/thread/" && endswith path "/logs"); [reflexivity|].
  destruct (startswith path "/api/thread/"); [reflexivity|].
  destruct (String.eqb path "/api/events"); [reflexivity|].
  destruct (String.eqb path "/api/worktrees"); [reflexivity|].
  destruct (String.eqb path "/api/logs"); reflexivity.
Qed.

Ltac literal_path E := apply String.eqb_eq in E; subst; reflexivity.

Lemma matches_route_of (path : string) :
  matches_route path =
  match route_of path with RUnknown => false | _ => true end.
Proof.
  unfold matches_route, route_of.
  destruct (String.eqb path "/") eqn:E1; [reflexivity|].
  destruct (String.eqb path "/index.html") eqn:E2; [reflexivity|].
  destruct (String.eqb path "/api/status") eqn:E3; [reflexivity|].
  destruct (String.eqb path "/api/threads") eqn:E4; [reflexivity|].
  destruct (startswith path "/api/thread/") eqn:E5;
    [now destruct (endswith path "/logs")|].
  destruct (String.eqb path "/api/events") eqn:E6; [reflexivity|].
  destruct (String.eqb path "/api/worktrees") eqn:E7; [reflexivity|].
  destruct (String.eqb path "/api/logs") eqn:E8; reflexivity.
Qed.

Lemma reads_param_of (path : string) :
  reads_param path =
  match route_of path with
  | RThreadLogs _ | REvents | RLogs => true
  | _ => false
  end.
Proof.
  unfold reads_param, route_of.
  destruct (String.eqb path "/") eqn:E1; [literal_path E1|].
  destruct (String.eqb path "/index.html") eqn:E2; [literal_path E2|].
  destruct (String.eqb path "/api/status") eqn:E3; [literal_path E3|].
  destruct (String.eqb path "/api/threads") eqn:E4; [literal_path E4|].
  destruct (startswith path "/api/thread/") eqn:E5.
  - destruct (endswith path "/logs"); [reflexivity|].
    destruct (prefix_split _ _ E5) as [r ->]. reflexivity.
  - cbn [orb andb].
    destruct (String.eqb path "/api/events") eqn:E6; [reflexivity|].
    destruct (String.eqb path "/api/worktrees") eqn:E7; [literal_path E7|].
    destruct (String.eqb path "/api/logs") eqn:E8; reflexivity.
Qed.

Lemma outcome_bind {A B} (m : M A) (k : A -> M B) :
  outcome (bind m k) =
  match outcome m with
  | Ok a => outcome (k a)
  | Raise e => Raise e
  end.
Proof.
  destruct m as [out [a|e]]; simpl; [|reflexivity]. now destruct (k a).
Qed.

Lemma answers_with_bind {A} (P : response -> Prop) (m : M A) (k : A -> M response) :
  (forall a, answers_with P (k a)) -> answers_with P (bind m k).
Proof.
  intros H. unfold answers_with. rewrite outcome_bind.
  destruct (outcome m) as [a|e]; [apply H|exact I].
Qed.

Lemma answers_with_send_json (P : response -> Prop) (m : M json) :
  (forall data, answers_with P (send_json data)) -> answers_with P (bind m send_json).
Proof. apply answers_with_bind. Qed.

Section Router.
Variable execute : database -> string -> list sqlval -> Result (list row).
Variables (html : string) (w : World) (DATA_DIR : path).

(** Every branch but the last answers, if at all, with status 200 and
    a consistent [Content-Length]; the [/api] branches with the JSON
    headers. *)
Lemma dispatch_answers (r : route) (query : qs) :
  answers_with
    (fun resp =>
       well_formed resp /\
       match r with
       | RStatic => header "Content-Type" match resp with
                                          | Response _ headers _ => headers
                                          | ErrorResponse _ => []
                                          end = Some "text/html; charset=utf-8"
       | RUnknown => resp = ErrorResponse 404
       | _ => is_json_response resp
       end)
    (dispatch execute html w DATA_DIR r query).
Proof.
  assert (Hjson : forall data,
            answers_with (fun resp => well_formed resp /\ is_json_response resp)
              (send_json data)).
  { intros data. unfold answers_with. simpl. repeat split. }
  destruct r; simpl dispatch;
    try (apply answers_with_bind; intros; try apply answers_with_bind; intros;
         apply Hjson).
  - unfold answers_with. simpl. repeat split.
  - unfold answers_with. simpl. repeat split.
Qed.

(** X6.  A path outside the route table is answered with the error
    page 404, without reading the store, a file or the query string and
    without output; no path of the table ever is. *)
Theorem unknown_path_gets_404 (path : string) (query : qs) :
  (matches_route path = false ->
   do_GET execute html w DATA_DIR path query = ret (ErrorResponse 404)) /\
  (forall code,
     outcome (do_GET execute html w DATA_DIR path query) = Ok (ErrorResponse code) ->
     matches_route path = false /\ code = 404).
Proof.
  rewrite do_GET_dispatch, matches_route_of. split.
  - intros H. destruct (route_of path); try discriminate. reflexivity.
  - intros code H.
    pose proof (dispatch_answers (route_of path) query) as Hd.
    unfold answers_with in Hd. rewrite H in Hd. destruct Hd as [Hwf Hr].
    destruct (route_of path); simpl in Hr; try contradiction (proj1 Hr);
      try discriminate; try contradiction.
    split; [reflexivity|]. now inversion Hr.
Qed.

Lemma int_param_by_lookup (query query' : qs) (name : string) (default : Z) :
  qs_get name query = qs_get name query' ->
  int_param query name default = int_param query' name default.
Proof. unfold int_param. now intros ->. Qed.

(** X8.  [do_GET] reads the query string through the values of [lines]
    and [limit] only, and not at all on the routes that take no
    parameter: a malformed or surplus parameter cannot change, or break,
    the answer of [/], [/api/status], [/api/threads], [/api/thread/{id}]
    and [/api/worktrees]. *)
Theorem query_string_is_read_by_name (path : string) (query query' : qs) :
  (qs_get "lines" query = qs_get "lines" query' ->
   qs_get "limit" query = qs_get "limit" query' ->
   do_GET execute html w DATA_DIR path query
   = do_GET execute html w DATA_DIR path query') /\
  (reads_param path = false ->
   do_GET execute html w DATA_DIR path query
   = do_GET execute html w DATA_DIR path query').
Proof.
  rewrite !do_GET_dispatch, reads_param_of. split.
  - intros Hlines Hlimit. destruct (route_of path); simpl; try reflexivity.
    + now rewrite (int_param_by_lookup _ _ _ _ Hlines).
    + now rewrite (int_param_by_lookup _ _ _ _ Hlimit).
    + now rewrite (int_param_by_lookup _ _ _ _ Hlines).
  - intros H. destruct (route_of path); try discriminate; reflexivity.
Qed.

(** X9.  A request without the parameter is the request with the
    default written out: [lines=100] on [/api/logs], [limit=50] on
    [/api/events], [lines=50] on the log route of a thread. *)
Theorem omitted_parameter_is_default (path : string) (query : qs) :
  (qs_get "lines" query = None ->
   do_GET execute html w DATA_DIR "/api/logs" query
   = do_GET execute html w DATA_DIR "/api/logs" (one_param "lines" "100")) /\
  (qs_get "limit" query = None ->
   do_GET execute html w DATA_DIR "/api/events" query
   = do_GET execute html w DATA_DIR "/api/events" (one_param "limit" "50")) /\
  (qs_get "lines" query = None ->
   startswith path "/api/thread/" = true -> endswith path "/logs" = true ->
   do_GET execute html w DATA_DIR path query
   = do_GET execute html w DATA_DIR path (one_param "lines" "50")).
Proof.
  split; [|split].
  - intros H. rewrite !route_logs. unfold int_param. now rewrite H.
  - intros H. rewrite !route_events. unfold int_param. now rewrite H.
  - intros H Hs He. rewrite !route_thread_logs by assumption.
    unfold int_param. now rewrite H.
Qed.

End Router.

Lemma unknown_api_path_gets_404 :
  matches_route "/api/nope" = false /\
  do_GET sqlite_execute "<html>" fixture_world local_dir "/api/nope"
    (one_param "lines" "abc")
  = ret (ErrorResponse 404).
Proof.
  split; [reflexivity|].
  exact (proj1 (unknown_path_gets_404 sqlite_execute "<html>" fixture_world local_dir
                  "/api/nope" (one_param "lines" "abc")) eq_refl).
Defined.


Lemma status_ignores_malformed_lines :
  reads_param "/api/status" = false /\
  do_GET sqlite_execute "<html>" fixture_world local_dir "/api/status"
    (one_param "lines" "abc")
  = do_GET sqlite_execute "<html>" fixture_world local_dir "/api/status" [] /\
  qs_get "lines" [("junk", ["1"]); ("lines", ["2"; "x"])]
  = qs_get "lines" [("lines", ["2"; "x"])] /\
  qs_get "limit" [("junk", ["1"]); ("lines", ["2"; "x"])]
  = qs_get "limit" [("lines", ["2"; "x"])] /\
  do_GET sqlite_execute "<html>" (log_world ten_lines) local_dir "/api/logs"
    [("junk", ["1"]); ("lines", ["2"; "x"])]
  = do_GET sqlite_execute "<html>" (log_world ten_lines) local_dir "/api/logs"
      [("lines", ["2"; "x"])].
Proof.
  split; [reflexivity|]. split.
  - exact (proj2 (query_string_is_read_by_name sqlite_execute "<html>" fixture_world
                    local_dir "/api/status" (one_param "lines" "abc") []) eq_refl).
  - split; [reflexivity|]. split; [reflexivity|].
    exact (proj1 (query_string_is_read_by_name sqlite_execute "<html>"
                    (log_world ten_lines) local_dir "/api/logs"
                    [("junk", ["1"]); ("lines", ["2"; "x"])] [("lines", ["2"; "x"])])
             eq_refl eq_refl).
Defined.

Lemma logs_without_parameter :
  qs_get "lines" [] = None /\
  do_GET sqlite_execute "<html>" (log_world ten_lines) local_dir "/api/logs" []
  = do_GET sqlite_execute "<html>" (log_world ten_lines) local_dir "/api/logs"
      (one_param "lines" "100") /\
  qs_get "limit" [] = None /\
  do_GET sqlite_execute "<html>" fixture_world local_dir "/api/events" []
  = do_GET sqlite_execute "<html>" fixture_world local_dir "/api/events"
      (one_param "limit" "50") /\
  startswith "/api/thread/t1/logs" "/api/thread/" = true /\
  endswith "/api/thread/t1/logs" "/logs" = true /\
  do_GET sqlite_execute "<html>" (logs_world ten_lines) local_dir "/api/thread/t1/logs" []
  = do_GET sqlite_execute "<html>" (logs_world ten_lines) local_dir "/api/thread/t1/logs"
      (one_param "lines" "50").
Proof.
  destruct (omitted_parameter_is_default sqlite_execute "<html>" (log_world ten_lines)
              local_dir "/api/thread/t1/logs" []) as (Hl & _ & _).
  destruct (omitted_parameter_is_default sqlite_execute "<html>" fixture_world
              local_dir "/api/thread/t1/logs" []) as (_ & He & _).
  destruct (omitted_parameter_is_default sqlite_execute "<html>" (logs_world ten_lines)
              local_dir "/api/thread/t1/logs" []) as (_ & _ & Ht).
  split; [reflexivity|]. split; [exact (Hl eq_refl)|].
  split; [reflexivity|]. split; [exact (He eq_refl)|].
  split; [reflexivity|]. split; [reflexivity|].
  exact (Ht eq_refl eq_refl eq_refl).
Defined.

(** ** Thread ids in paths *)

Lemma rev_string_app (a b : string) :
  rev_string (a ++ b) = rev_string b ++ rev_string a.
Proof.
  induction a as [|c a IH]; simpl; [now rewrite append_empty_r|].
  now rewrite IH, append_assoc.
Qed.

Lemma rev_string_involutive (s : string) : rev_string (rev_string s) = s.
Proof.
  induction s as [|c s IH]; simpl; [reflexivity|].
  rewrite rev_string_app, IH. reflexivity.
Qed.

Lemma no_slash_app (a b : string) :
  no_slash (a ++ b) = no_slash a && no_slash b.
Proof.
  induction a as [|c a IH]; simpl; [reflexivity|].
  now rewrite IH, andb_assoc.
Qed.

Lemma no_slash_rev (s : string) : no_slash (rev_string s) = no_slash s.
Proof.
  induction s as [|c s IH]; simpl; [reflexivity|].
  rewrite no_slash_app, IH. simpl. rewrite andb_true_r. apply andb_comm.
Qed.

(** An occurrence of a pattern that begins with [/] cannot start inside
    a piece free of [/]: the piece is copied. *)
Lemma replace_from_no_slash (old' new s t : string) :
  no_slash s = true ->
  replace_from (String "/" old') new O (s ++ t)
  = s ++ replace_from (String "/" old') new O t.
Proof.
  induction s as [|c s IH]; intros H; [reflexivity|].
  simpl in H. apply andb_true_iff in H as [Hc Hs].
  cbn [append replace_from String.prefix].
  destruct (ascii_dec "/" c) as [<-|_]; [discriminate|].
  now rewrite IH.
Qed.

Lemma replace_no_slash (old' new s : string) :
  no_slash s = true -> replace_from (String "/" old') new O s = s.
Proof.
  intros H. rewrite <- (append_empty_r s) at 1.
  rewrite replace_from_no_slash by exact H. simpl. apply append_empty_r.
Qed.

Lemma prefix_app (p r : string) : String.prefix p (p ++ r) = true.
Proof.
  induction p as [|c p IH]; simpl; [now destruct r|].
  destruct (ascii_dec c c); [exact IH|contradiction].
Qed.

Lemma replace_thread_prefix (rest : string) :
  replace ("/api/thread/" ++ rest) "/api/thread/" EmptyString
  = replace_from "/api/thread/" EmptyString O rest.
Proof.
  unfold replace.
  change ("/api/thread/" ++ rest) with (String "/" ("api/thread/" ++ rest)).
  cbn [replace_from].
  change (String "/" ("api/thread/" ++ rest)) with ("/api/thread/" ++ rest).
  rewrite prefix_app. reflexivity.
Qed.

Lemma thread_id_of_detail_path (thread_id : string) :
  no_slash thread_id = true ->
  replace ("/api/thread/" ++ thread_id) "/api/thread/" EmptyString = thread_id.
Proof.
  intros H. rewrite replace_thread_prefix. now apply replace_no_slash.
Qed.

Lemma thread_id_of_logs_path (thread_id : string) :
  no_slash thread_id = true ->
  replace (replace ("/api/thread/" ++ thread_id ++ "/logs") "/api/thread/" EmptyString)
    "/logs" EmptyString = thread_id.
Proof.
  intros H. rewrite replace_thread_prefix.
  rewrite replace_from_no_slash by exact H.
  change (replace_from "/api/thread/" EmptyString O "/logs") with "/logs".
  unfold replace. rewrite replace_from_no_slash by exact H.
  change (replace_from "/logs" EmptyString O "/logs") with EmptyString.
  apply append_empty_r.
Qed.

Lemma logs_path_ends_with_logs (thread_id : string) :
  endswith ("/api/thread/" ++ thread_id ++ "/logs") "/logs" = true.
Proof.
  unfold endswith. rewrite !rev_string_app, append_assoc. apply prefix_app.
Qed.

(** Of the ids free of [/], only [logs] makes the detail path end in
    [/logs]. *)
Lemma detail_path_ends_with_logs (thread_id : string) :
  no_slash thread_id = true ->
  endswith ("/api/thread/" ++ thread_id) "/logs" = true ->
  thread_id = "logs".
Proof.
  intros Hns He. unfold endswith in He. rewrite rev_string_app in He.
  rewrite <- no_slash_rev in Hns.
  rewrite <- (rev_string_involutive thread_id).
  change (rev_string "/logs") with "sgol/" in He.
  change (rev_string "/api/thread/") with "/daerht/ipa/" in He.
  destruct (rev_string thread_id) as [|c1 [|c2 [|c3 [|c4 [|c5 r]]]]];
    cbn [append String.prefix] in He;
    repeat match type of He with
           | context [ascii_dec ?a ?b] =>
               destruct (ascii_dec a b); subst; cbn [append String.prefix] in He
           end;
    try discriminate; reflexivity.
Qed.

Section ThreadIds.
Variable execute : database -> string -> list sqlval -> Result (list row).
Variables (html : string) (w : World) (DATA_DIR : path).

Local Open Scope py_scope.

(** X10.  For every thread id free of [/], the path
    [/api/thread/{id}/logs] reaches the log handler with exactly that
    id. *)
Theorem logs_path_reaches_log_handler (thread_id : string) (query : qs) :
  no_slash thread_id = true ->
  do_GET execute html w DATA_DIR ("/api/thread/" ++ thread_id ++ "/logs") query =
  (lines <- int_param query "lines" 50 ;;
   data <- api_thread_logs w DATA_DIR thread_id lines ;;
   send_json data).
Proof.
  intros H. rewrite route_thread_logs;
    [|apply prefix_app|apply logs_path_ends_with_logs].
  now rewrite thread_id_of_logs_path.
Qed.

(** X11.  For every thread id free of [/] other than [logs], the path
    [/api/thread/{id}] reaches the detail handler with exactly that id. *)
Theorem detail_path_reaches_detail_handler (thread_id : string) (query : qs) :
  no_slash thread_id = true -> thread_id <> "logs" ->
  do_GET execute html w DATA_DIR ("/api/thread/" ++ thread_id) query =
  (data <- api_thread_detail execute w DATA_DIR thread_id ;; send_json data).
Proof.
  intros H Hne. rewrite route_thread_detail; [|apply prefix_app|].
  - now rewrite thread_id_of_detail_path.
  - destruct (endswith ("/api/thread/" ++ thread_id) "/logs") eqn:E; [|reflexivity].
    now apply detail_path_ends_with_logs in E.
Qed.

End ThreadIds.

Lemma logs_path_of_t1 :
  no_slash "t1" = true /\
  do_GET sqlite_execute "<html>" (logs_world two_lines) local_dir
    "/api/thread/t1/logs" (one_param "lines" "1")
  = send_json (thread_logs_reply "t1" 1 (nl "second")).
Proof.
  split; [reflexivity|].
  etransitivity;
    [exact (logs_path_reaches_log_handler sqlite_execute "<html>"
              (logs_world two_lines) local_dir "t1" (one_param "lines" "1") eq_refl)|].
  reflexivity.
Defined.

Lemma detail_path_of_t9 :
  no_slash "t9" = true /\ "t9" <> "logs" /\
  do_GET sqlite_execute "<html>" fixture_world local_dir "/api/thread/t9" []
  = send_json not_found_reply.
Proof.
  assert (Hne : "t9" <> "logs") by discriminate.
  split; [reflexivity|]. split; [exact Hne|].
  etransitivity;
    [exact (detail_path_reaches_detail_handler sqlite_execute "<html>" fixture_world
              local_dir "t9" [] eq_refl Hne)|].
  reflexivity.
Defined.

(** * Properties of the dashboard script *)

Example replace_first_example :
  replace_first " " "T" "2024-01-01 00:00:00" ++ "Z" = "2024-01-01T00:00:00Z" /\
  replace_first " " "T" "a b c" = "aTb c" /\
  replace_first " " "T" "abc" = "abc".
Proof. repeat split; reflexivity. Qed.

(** ** The refresh timer *)

Lemma ticks_add (a b : nat) (c : Client) : ticks (a + b) c = ticks a (ticks b c).
Proof. induction a as [|a IH]; simpl; [reflexivity|now rewrite IH]. Qed.

(** Three firings from a full countdown: one refresh, and a full
    countdown again. *)
Lemma three_ticks (c : Client) :
  countdown c = 3 ->
  ticks 3 c =
  {| currentLogType := currentLogType c;
     countdown := 3;
     refresh_countdown := 0;
     calls := (calls c ++ RefreshAll ::
               (if String.eqb (currentLogType c) "orchestrator"
                then [RefreshLogs] else []))%list |}.
Proof.
  destruct c as [kind n shown done]. simpl. intros ->. reflexivity.
Qed.

(** X15.  After [startAutoRefresh], as long as the log source is not
    switched, the timer sets off [refreshAll] on every third firing and
    on no other: after [3 k] firings it has done so [k] times, with the
    log refresh alongside exactly when the log source is the
    orchestrator, and the countdown then runs 2, 1 and shows 0 at the
    next refresh. *)
Theorem refresh_fires_every_third_tick (c : Client) (k : nat) :
  let s := ticks (3 * k) (startAutoRefresh c) in
  countdown s = 3 /\
  currentLogType s = currentLogType c /\
  refreshes s = (refreshes c + k)%nat /\
  log_refreshes s =
    (log_refreshes c +
     if String.eqb (currentLogType c) "orchestrator" then k else 0)%nat /\
  (countdown (tick s) = 2 /\ calls (tick s) = calls s) /\
  (countdown (tick (tick s)) = 1 /\ calls (tick (tick s)) = calls s) /\
  (refresh_countdown (tick (tick (tick s))) = 0 /\
   refreshes (tick (tick (tick s))) = S (refreshes s)).
Proof.
  induction k as [|k IH].
  - simpl. unfold refreshes, log_refreshes. simpl.
    rewrite !Nat.add_0_r, filter_app, length_app. simpl.
    repeat split; try reflexivity.
    + now destruct (String.eqb (currentLogType c) "orchestrator").
    + destruct (String.eqb (currentLogType c) "orchestrator"); simpl; lia.
  - replace (3 * S k)%nat with (3 + 3 * k)%nat by lia.
    rewrite ticks_add. cbv zeta in IH.
    destruct IH as (Hc & Hk & Hr & Hl & _).
    set (s := ticks (3 * k) (startAutoRefresh c)) in *.
    cbv zeta. rewrite (three_ticks s Hc).
    unfold refreshes, log_refreshes in *. cbn [calls countdown currentLogType].
    rewrite Hk.
    split; [reflexivity|]. split; [reflexivity|].
    split; [rewrite filter_app, length_app, Hr;
            destruct (String.eqb (currentLogType c) "orchestrator"); simpl; lia|].
    split; [rewrite filter_app, length_app, Hl;
            destruct (String.eqb (currentLogType c) "orchestrator"); simpl; lia|].
    split; [split; reflexivity|]. split; [split; reflexivity|].
    split; [reflexivity|]. unfold tick at 1 2 3. simpl.
    rewrite !filter_app, !length_app.
    destruct (String.eqb (currentLogType c) "orchestrator"); simpl; lia.
Qed.

(** ** Relative times *)

(** X16.  [formatTimeAgo] shows a whole number of the largest unit
    that fits, rounded down: seconds below a minute, minutes (1 to 59)
    below an hour, hours (1 to 23) below a day, days from then on.  A
    timestamp in the future shows [just now] and one that is not a date
    shows [NaNd ago]. *)
Theorem formatTimeAgo_units (seconds_since : string -> option Z)
    (c : ascii) (rest : string) :
  let ts := String c rest in
  let shown := formatTimeAgo seconds_since (Some ts) in
  match seconds_since (replace_first " " "T" ts ++ "Z") with
  | None => shown = "NaNd ago"
  | Some diff =>
      (diff < 0 /\ shown = "just now") \/
      (0 <= diff < 60 /\ shown = str_of_int diff ++ "s ago") \/
      (exists n, 1 <= n < 60 /\ 60 * n <= diff < 60 * (n + 1) /\
                 shown = str_of_int n ++ "m ago") \/
      (exists n, 1 <= n < 24 /\ 3600 * n <= diff < 3600 * (n + 1) /\
                 shown = str_of_int n ++ "h ago") \/
      (exists n, 1 <= n /\ 86400 * n <= diff < 86400 * (n + 1) /\
                 shown = str_of_int n ++ "d ago")
  end.
Proof.
  cbv zeta. unfold formatTimeAgo.
  destruct (seconds_since (replace_first " " "T" (String c rest) ++ "Z")) as [diff|];
    [|reflexivity].
  destruct (Z.ltb_spec diff 0); [left; now split|].
  destruct (Z.ltb_spec diff 60); [right; left; split; [lia|reflexivity]|].
  destruct (Z.ltb_spec diff 3600).
  { right; right; left. exists (diff / 60). split; [|split; [|reflexivity]].
    - split; [apply Z.div_le_lower_bound; lia|apply Z.div_lt_upper_bound; lia].
    - pose proof (Z.mul_div_le diff 60). pose proof (Z.mul_succ_div_gt diff 60). lia. }
  destruct (Z.ltb_spec diff 86400).
  { right; right; right; left. exists (diff / 3600). split; [|split; [|reflexivity]].
    - split; [apply Z.div_le_lower_bound; lia|apply Z.div_lt_upper_bound; lia].
    - pose proof (Z.mul_div_le diff 3600). pose proof (Z.mul_succ_div_gt diff 3600). lia. }
  right; right; right; right. exists (diff / 86400). split; [|split; [|reflexivity]].
  - apply Z.div_le_lower_bound; lia.
  - pose proof (Z.mul_div_le diff 86400). pose proof (Z.mul_succ_div_gt diff 86400). lia.
Qed.

(** * The ceilings, the unopenable store and the shape of the answers *)


Lemma int_param_raises (query : qs) (name : string) (default : Z) :
  ~ parses query name ->
  exists e, int_param query name default = raise e /\
            (exn_cls e = ValueError \/ exn_cls e = IndexError).
Proof.
  unfold parses, int_param, py_int. intros H.
  destruct (qs_get name query) as [[|v vs]|].
  - eexists. split; [reflexivity|now right].
  - destruct (int_of_str v) as [n|].
    + exfalso. apply H. discriminate.
    + eexists. split; [reflexivity|now left].
  - exfalso. now apply H.
Qed.

Section Answers.
Variable execute : database -> string -> list sqlval -> Result (list row).
Variables (html : string) (w : World) (DATA_DIR : path).

Local Open Scope py_scope.

(** C1.  Whatever value is requested, the value that the handlers of
    [/api/logs], [/api/thread/{id}/logs] and [/api/events] use is
    [min(requested, ceiling)], which is at most the ceiling of the
    endpoint (1000, 500 and 500): it is the bound the log is read with and
    the parameter bound to [LIMIT ?].  Hence every positive request is
    answered with at most 1000 lines on [/api/logs] and at most 500 on the
    log route of a thread, and so is the request [lines=999999] sent
    through [do_GET] to either route. *)
Theorem effective_limit_never_exceeds_ceiling (thread_id : string) (requested : Z) :
  (Z.min requested 1000 <= 1000 /\
   api_logs w DATA_DIR requested =
   (content <- read_log_file w (orchestrator_log DATA_DIR) (Z.min requested 1000) ;;
    ret (logs_reply requested content))) /\
  (Z.min requested 500 <= 500 /\
   api_thread_logs w DATA_DIR thread_id requested =
   (content <- read_log_file w (thread_log DATA_DIR thread_id) (Z.min requested 500) ;;
    ret (thread_logs_reply thread_id requested content))) /\
  (Z.min requested 500 <= 500 /\
   api_events execute w DATA_DIR requested =
   (rows <- query_db execute w DATA_DIR SQL_EVENTS [SInt (Z.min requested 500)] ;;
    ret (JArr (map json_of_row rows)))) /\
  (forall p : positive, exists content,
     api_logs w DATA_DIR (Z.pos p) = ret (logs_reply (Z.pos p) content) /\
     (line_count content <= 1000)%nat) /\
  (forall p : positive, exists content,
     api_thread_logs w DATA_DIR thread_id (Z.pos p)
     = ret (thread_logs_reply thread_id (Z.pos p) content) /\
     (line_count content <= 500)%nat) /\
  (exists content,
     do_GET execute html w DATA_DIR "/api/logs" (one_param "lines" "999999") =
     send_json (logs_reply 999999 content) /\
     (line_count content <= 1000)%nat) /\
  (forall path,
     startswith path "/api/thread/" = true -> endswith path "/logs" = true ->
     exists id content,
       do_GET execute html w DATA_DIR path (one_param "lines" "999999") =
       send_json (thread_logs_reply id 999999 content) /\
       (line_count content <= 500)%nat).
Proof.
  split; [split; [apply Z.le_min_r | reflexivity]|].
  split; [split; [apply Z.le_min_r | reflexivity]|].
  split; [split; [apply Z.le_min_r | reflexivity]|].
  split; [|split; [|split]].
  - intros p. eexists. split; [apply api_logs_eq|].
    pose proof (tail_text_line_count w (orchestrator_log DATA_DIR)
                  (Z.min (Z.pos p) 1000)) as H.
    lia.
  - intros p. eexists. split; [apply api_thread_logs_eq|].
    pose proof (tail_text_line_count w (thread_log DATA_DIR thread_id)
                  (Z.min (Z.pos p) 500)) as H.
    lia.
  - eexists. split; [apply do_GET_logs; reflexivity|].
    pose proof (tail_text_line_count w (orchestrator_log DATA_DIR)
                  (Z.min 999999 1000)) as H.
    change (Z.min 999999 1000) with 1000 in *. lia.
  - intros path Hs He. eexists. eexists. split.
    + rewrite route_thread_logs by assumption.
      rewrite (int_param_one "lines" "999999" 50 999999 eq_refl), bind_ret.
      rewrite api_thread_logs_eq, bind_ret. reflexivity.
    + match goal with
      | |- (line_count (tail_text ?w' ?f ?n) <= _)%nat =>
          pose proof (tail_text_line_count w' f n) as H
      end.
      change (Z.min 999999 500) with 500 in *. lia.
Qed.

(** C5, as amended.  A GET request whose path matches a route of the
    table is answered with status 200 whenever the one value the route
    reads from the query string ([lines] on the two log routes, [limit]
    on [/api/events]), if present, reads as an integer, and the store
    file is absent or can be opened; no statement then raises out of the
    read access layer.  When that value does not read as an integer the
    path is one of those three routes and [do_GET] raises, before any
    output, the [ValueError] of [int] (or the [IndexError] of an empty
    value list). *)
Theorem matched_route_responds_200 (path : string) (query : qs) :
  (matches_route path = true -> param_parses path query ->
   store_reachable w DATA_DIR ->
   responds_200 (do_GET execute html w DATA_DIR path query)) /\
  (~ param_parses path query ->
   matches_route path = true /\
   exists e, do_GET execute html w DATA_DIR path query = raise e /\
             (exn_cls e = ValueError \/ exn_cls e = IndexError)) /\
  (store_reachable w DATA_DIR ->
   forall sql params,
     succeeds (query_db execute w DATA_DIR sql params) /\
     succeeds (scalar_db execute w DATA_DIR sql params)).
Proof.
  rewrite do_GET_dispatch, matches_route_of. unfold param_parses, param_read.
  split; [|split].
  - intros Hroute Hparse Hstore.
    destruct (route_of path); try discriminate; cbn [dispatch].
    + eexists _, _, _; reflexivity.
    + now apply responds_200_send_json, api_status_succeeds.
    + now apply responds_200_send_json, rows_handler_succeeds.
    + apply responds_200_bind; [now apply int_param_succeeds|intros n].
      apply responds_200_send_json. rewrite api_thread_logs_eq. apply succeeds_ret.
    + now apply responds_200_send_json, api_thread_detail_succeeds.
    + apply responds_200_bind; [now apply int_param_succeeds|intros n].
      now apply responds_200_send_json, rows_handler_succeeds.
    + now apply responds_200_send_json, rows_handler_succeeds.
    + apply responds_200_bind; [now apply int_param_succeeds|intros n].
      apply responds_200_send_json. rewrite api_logs_eq. apply succeeds_ret.
  - intros Hparse.
    destruct (route_of path); try (exfalso; now apply Hparse);
      (split; [reflexivity|]); cbn [dispatch].
    + destruct (int_param_raises query "lines" 50 Hparse) as (e & -> & He).
      now exists e.
    + destruct (int_param_raises query "limit" 50 Hparse) as (e & -> & He).
      now exists e.
    + destruct (int_param_raises query "lines" 100 Hparse) as (e & -> & He).
      now exists e.
  - intros Hstore sql params.
    split; [now apply query_db_succeeds|now apply scalar_db_succeeds].
Qed.



End Answers.

(** C2.  The claim fails on the code when the store file exists and
    cannot be opened: [get_db] calls [sqlite3.connect] before the [try]
    block of its callers, so the error of the connection reaches the
    caller of [query_db] and of [scalar_db], whatever the statement. *)
Theorem unopenable_store_raises_to_caller
    (execute : database -> string -> list sqlval -> Result (list row))
    (sql : string) (params : list sqlval) :
  path_exists unopenable_world (DB_PATH local_dir) = true /\
  sqlite3_connect unopenable_world (DB_PATH local_dir) = Raise cannot_open /\
  query_db execute unopenable_world local_dir sql params = raise cannot_open /\
  scalar_db execute unopenable_world local_dir sql params = raise cannot_open.
Proof.
  split; [reflexivity|]. split; [reflexivity|].
  rewrite query_db_eq, scalar_db_eq. split; reflexivity.
Qed.

(** C7.  The claim fails on the code for the store state in which the
    file exists and cannot be opened: the first count of [api_status]
    raises the error of the connection out of [do_GET] and nothing is
    reported. *)
Theorem status_of_unopenable_store_raises
    (execute : database -> string -> list sqlval -> Result (list row))
    (html : string) (query : qs) :
  path_exists unopenable_world (DB_PATH local_dir) = true /\
  sqlite3_connect unopenable_world (DB_PATH local_dir) = Raise cannot_open /\
  do_GET execute html unopenable_world local_dir "/api/status" query
  = raise cannot_open.
Proof.
  split; [reflexivity|]. split; [reflexivity|].
  rewrite route_status. unfold api_status. rewrite scalar_db_eq. reflexivity.
Qed.

Example int_space_and_length_examples :
  int_of_str (String (ascii_of_nat 28) "5") = None /\
  int_of_str (String "5" (chr (ascii_of_nat 31))) = None /\
  int_of_str (String (ascii_of_nat 160) (String "5" (chr (ascii_of_nat 133)))) = Some 5 /\
  int_of_str (String (ascii_of_nat 11) (String "5" (chr (ascii_of_nat 12)))) = Some 5 /\
  strip (String (ascii_of_nat 28) "5") = "5" /\
  int_of_str (zeros 4300) = Some 0 /\
  int_of_str (zeros 4301) = None /\
  int_of_str (String "-" (zeros 4300)) = Some 0.
Proof. repeat split; vm_compute; reflexivity. Qed.

Example encode_examples :
  encode "abc" = "abc" /\
  encode (chr (ascii_of_nat 233)) = String (ascii_of_nat 195) (chr (ascii_of_nat 169)) /\
  encode (chr (ascii_of_nat 128)) = String (ascii_of_nat 194) (chr (ascii_of_nat 128)) /\
  encode (chr (ascii_of_nat 255)) = String (ascii_of_nat 195) (chr (ascii_of_nat 191)).
Proof. repeat split; reflexivity. Qed.

(** The request [lines=999999] on the log route of thread [t1]. *)
Lemma thread_logs_request_for_999999 :
  startswith "/api/thread/t1/logs" "/api/thread/" = true /\
  endswith "/api/thread/t1/logs" "/logs" = true /\
  exists id content,
    do_GET sqlite_execute "<html>" (logs_world ten_lines) local_dir
      "/api/thread/t1/logs" (one_param "lines" "999999")
    = send_json (thread_logs_reply id 999999 content) /\
    (line_count content <= 500)%nat.
Proof.
  split; [reflexivity|]. split; [reflexivity|].
  destruct (effective_limit_never_exceeds_ceiling sqlite_execute "<html>"
              (logs_world ten_lines) local_dir "t1" 999999)
    as (_ & _ & _ & _ & _ & _ & H).
  exact (H "/api/thread/t1/logs" eq_refl eq_refl).
Defined.

(** [/api/events?limit=7] on the store of five threads, and the same
    route with a limit that is no integer. *)
Lemma events_request_responds_200 :
  (matches_route "/api/events" = true /\
   param_parses "/api/events" (one_param "limit" "7") /\
   store_reachable fixture_world local_dir /\
   responds_200 (do_GET sqlite_execute "<html>" fixture_world local_dir "/api/events"
                   (one_param "limit" "7"))) /\
  (~ param_parses "/api/events" (one_param "limit" "x7") /\
   exists e, do_GET sqlite_execute "<html>" fixture_world local_dir "/api/events"
               (one_param "limit" "x7") = raise e /\
             (exn_cls e = ValueError \/ exn_cls e = IndexError)) /\
  (param_parses "/api/status" (one_param "lines" "abc") /\
   responds_200 (do_GET sqlite_execute "<html>" fixture_world local_dir "/api/status"
                   (one_param "lines" "abc"))).
Proof.
  assert (Hr : store_reachable fixture_world local_dir)
    by (right; exists five_threads; split; reflexivity).
  assert (Hp : param_parses "/api/events" (one_param "limit" "7"))
    by (vm_compute; discriminate).
  assert (Hn : ~ param_parses "/api/events" (one_param "limit" "x7"))
    by (vm_compute; intros H; now apply H).
  assert (Hs : param_parses "/api/status" (one_param "lines" "abc")) by exact I.
  split; [|split].
  - split; [reflexivity|]. split; [exact Hp|]. split; [exact Hr|].
    exact (proj1 (matched_route_responds_200 sqlite_execute "<html>" fixture_world
                    local_dir "/api/events" (one_param "limit" "7"))
             eq_refl Hp Hr).
  - split; [exact Hn|].
    exact (proj2 (proj1 (proj2 (matched_route_responds_200 sqlite_execute "<html>"
                                  fixture_world local_dir "/api/events"
                                  (one_param "limit" "x7")))
                    Hn)).
  - split; [exact Hs|].
    exact (proj1 (matched_route_responds_200 sqlite_execute "<html>" fixture_world
                    local_dir "/api/status" (one_param "lines" "abc"))
             eq_refl Hs Hr).
Defined.
